(** * Event predicates of the ClusterHealthCheck controller

    A shallow embedding of [controllers/clusterhealthcheck_predicates.go]:
    the predicates that decide, for every watched kind, whether a
    create/update/delete/generic event reconciles the ClusterHealthChecks.

    Go pointers are [option] values ([None] is nil), a call either returns a
    value or panics, and the logging the predicates perform is threaded
    through explicitly as the state of the log sink. *)

From Stdlib Require Import String List Bool.
From stdpp Require Import base option strings gmap fin_maps.

Open Scope string_scope.
Open Scope list_scope.
Open Scope nat_scope.

(** ** Go runtime: returning, panicking, logging *)

Inductive outcome (A : Type) : Type :=
  | Returns (a : A)
  | Panics.
Arguments Returns {A} a.
Arguments Panics {A}.

(** One line handed to the sink by [Logger.Info]. *)
Record LogEntry : Type := {
  entry_level : nat;
  entry_keysAndValues : list string;
  entry_msg : string
}.

(** The process-wide log sink: the verbosity it lets through (which the
    deployment can change while the controller runs) and what it printed. *)
Record LogSink : Type := {
  sink_verbosity : nat;
  sink_lines : list LogEntry
}.

(** logr.Logger is a value: a V-level and the key/value pairs attached so far. *)
Record Logger : Type := {
  logger_level : nat;
  logger_values : list string
}.

(** A Go call that may log and may panic. *)
Definition Run (A : Type) : Type := LogSink -> outcome A * LogSink.

#[export] Instance Run_ret : MRet Run :=
  fun A a s => (Returns a, s).

#[export] Instance Run_bind : MBind Run :=
  fun A B f m s =>
    match m s with
    | (Returns a, s') => f a s'
    | (Panics, s') => (Panics, s')
    end.

Definition panic {A : Type} : Run A := fun s => (Panics, s).

(** [*p] and [p.f]: a nil pointer dereference panics. *)
Definition deref {A : Type} (p : option A) : Run A :=
  match p with
  | Some a => mret a
  | None => panic
  end.

Definition WithValues (l : Logger) (keysAndValues : list string) : Logger :=
  {| logger_level := logger_level l;
     logger_values := logger_values l ++ keysAndValues |}.

Definition V (l : Logger) (level : nat) : Logger :=
  {| logger_level := logger_level l + level;
     logger_values := logger_values l |}.

Definition Info (l : Logger) (msg : string) : Run unit :=
  fun s =>
    (Returns tt,
     if logger_level l <=? sink_verbosity s
     then {| sink_verbosity := sink_verbosity s;
             sink_lines := sink_lines s ++
               [{| entry_level := logger_level l;
                   entry_keysAndValues := logger_values l;
                   entry_msg := msg |}] |}
     else s).

(** What the call hands back to its caller. *)
Definition verdict {A : Type} (r : Run A) (s : LogSink) : outcome A := (r s).1.

(** The sink after the call. *)
Definition sink_after {A : Type} (r : Run A) (s : LogSink) : LogSink := (r s).2.

(** ** reflect.DeepEqual at the types the predicates use it at *)

(** map[string]string: both nil or both non-nil, same length, and every key
    of the first maps to an equal value in the second. *)
Definition DeepEqual_map (x y : option (gmap string string)) : bool :=
  match x, y with
  | None, None => true
  | Some m1, Some m2 =>
      (size m1 =? size m2) &&
      forallb (fun kv => match m2 !! kv.1 with
                         | Some v2 => String.eqb kv.2 v2
                         | None => false
                         end)
              (map_to_list m1)
  | _, _ => false
  end.

(** []T: both nil or both non-nil, same length, elements deeply equal
    position by position. *)
Fixpoint DeepEqual_elements {A : Type} (eq : A -> A -> bool) (l1 l2 : list A) : bool :=
  match l1, l2 with
  | [], [] => true
  | a :: l1', b :: l2' => eq a b && DeepEqual_elements eq l1' l2'
  | _, _ => false
  end.

Definition DeepEqual_slice {A : Type} (eq : A -> A -> bool) (x y : option (list A)) : bool :=
  match x, y with
  | None, None => true
  | Some l1, Some l2 => (length l1 =? length l2) && DeepEqual_elements eq l1 l2
  | _, _ => false
  end.

(** Two slices with the same entries for reflect.DeepEqual: both nil, or
    both non-nil with deeply equal entries at the same positions. *)
Definition same_entries {A : Type} (eq : A -> A -> bool) (x y : option (list A)) : Prop :=
  match x, y with
  | None, None => True
  | Some l1, Some l2 => Forall2 (fun a b => eq a b = true) l1 l2
  | _, _ => False
  end.

(** The entries a slice holds; a nil slice holds none. *)
Definition entries {A : Type} (x : option (list A)) : list A :=
  default [] x.

(** The labels of an object read as a set of key/value pairs: a nil map and
    an empty map both carry no label. *)
Definition labelSet (labels : option (gmap string string)) : gmap string string :=
  default ∅ labels.

(** A Go map is nil or not, apart from the labels it holds. *)
Definition is_nil {A : Type} (x : option A) : bool :=
  match x with
  | None => true
  | Some _ => false
  end.

(** ** controller-runtime events *)

Record TypedCreateEvent (T : Type) : Type := { CreateObject : T }.
Record TypedUpdateEvent (T : Type) : Type := { ObjectOld : T; ObjectNew : T }.
Record TypedDeleteEvent (T : Type) : Type := { DeleteObject : T; DeleteStateUnknown : bool }.
Record TypedGenericEvent (T : Type) : Type := { GenericObject : T }.
Arguments CreateObject {T} _.
Arguments ObjectOld {T} _.
Arguments ObjectNew {T} _.
Arguments DeleteObject {T} _.
Arguments DeleteStateUnknown {T} _.
Arguments GenericObject {T} _.

(** predicate.TypedPredicate[T]: the four callbacks the watch calls.  The
    predicate.Funcs literals of the source set all four fields. *)
Record TypedPredicate (T : Type) : Type := {
  Create : TypedCreateEvent T -> Run bool;
  Update : TypedUpdateEvent T -> Run bool;
  Delete : TypedDeleteEvent T -> Run bool;
  Generic : TypedGenericEvent T -> Run bool
}.
Arguments Create {T} _ _.
Arguments Update {T} _ _.
Arguments Delete {T} _ _.
Arguments Generic {T} _ _.

(** One watch callback: the operation together with its event. *)
Inductive Notification (T : Type) : Type :=
  | OnCreate (e : TypedCreateEvent T)
  | OnUpdate (e : TypedUpdateEvent T)
  | OnDelete (e : TypedDeleteEvent T)
  | OnGeneric (e : TypedGenericEvent T).
Arguments OnCreate {T} e.
Arguments OnUpdate {T} e.
Arguments OnDelete {T} e.
Arguments OnGeneric {T} e.

Definition evaluate {T : Type} (p : TypedPredicate T) (n : Notification T) : Run bool :=
  match n with
  | OnCreate e => Create p e
  | OnUpdate e => Update p e
  | OnDelete e => Delete p e
  | OnGeneric e => Generic p e
  end.

(** ** What is proved of a call *)

(** The call returns, and what it returns is [true] exactly when [P] holds. *)
Definition returns_iff (o : outcome bool) (P : Prop) : Prop :=
  exists b, o = Returns b /\ (b = true <-> P).

(** The verdict of the call is the same in every state of the log sink. *)
Definition sink_independent {A : Type} (r : Run A) : Prop :=
  forall s1 s2, verdict r s1 = verdict r s2.

(** A predicate is deterministic when the verdict on a notification is the
    same whatever the log sink holds when the call is made: in particular
    the same in a second run, made in the sink the first run left behind. *)
Definition deterministic {T : Type} (P : TypedPredicate T) : Prop :=
  forall n s1 s2, verdict (evaluate P n) s1 = verdict (evaluate P n) s2.

(** ** metav1.ObjectMeta *)

Record ObjectMeta : Type := {
  Name : string;
  Namespace : string;
  ResourceVersion : string;
  Labels : option (gmap string string);
  Annotations : option (gmap string string)
}.

(** clusterv1.MachinePhase is a string type. *)
Definition MachinePhase : Type := string.
Definition MachinePhaseRunning : MachinePhase := "Running".

Section Predicates.

(** ** What the API packages own

    The predicates read a handful of fields; the rest of every schema, the
    phase accessor of cluster-api, the verbosity constant of libsveltos and
    reflect.DeepEqual at the payload types are taken as given. *)

(** logs.LogVerbose *)
Variable LogVerbose : nat.

(** clusterv1.ClusterStatus, never read by ClusterPredicate *)
Context {ClusterStatus : Type}.

(** clusterv1.MachineSpec, clusterv1.MachineStatus and its GetTypedPhase *)
Context {MachineSpec MachineStatus : Type}.
Variable GetTypedPhase : MachineStatus -> MachinePhase.

(** configv1beta1.ClusterSummarySpec and configv1beta1.FeatureSummary *)
Context {ClusterSummarySpec FeatureSummary : Type}.
Variable DeepEqual_FeatureSummary : FeatureSummary -> FeatureSummary -> bool.

(** libsveltosv1beta1.HealthCheckReportSpec *)
Context {HealthCheckReportSpec : Type}.
Variable DeepEqual_HealthCheckReportSpec :
  HealthCheckReportSpec -> HealthCheckReportSpec -> bool.

(** libsveltosv1beta1.HealthCheckSpec *)
Context {HealthCheckSpec : Type}.
Variable DeepEqual_HealthCheckSpec : HealthCheckSpec -> HealthCheckSpec -> bool.

(** ** The watched kinds *)

Record ClusterSpec : Type := { ClusterSpec_Paused : bool }.

Record Cluster : Type := {
  Cluster_ObjectMeta : ObjectMeta;
  Cluster_Spec : ClusterSpec;
  Cluster_Status : ClusterStatus
}.

Record Machine : Type := {
  Machine_ObjectMeta : ObjectMeta;
  Machine_Spec : MachineSpec;
  Machine_Status : MachineStatus
}.

Record SveltosClusterSpec : Type := { SveltosClusterSpec_Paused : bool }.

Record SveltosClusterStatus : Type := {
  SveltosClusterStatus_Version : string;
  SveltosClusterStatus_Ready : bool;
  SveltosClusterStatus_FailureMessage : option string
}.

Record SveltosCluster : Type := {
  SveltosCluster_ObjectMeta : ObjectMeta;
  SveltosCluster_Spec : SveltosClusterSpec;
  SveltosCluster_Status : SveltosClusterStatus
}.

Record ClusterSummaryStatus : Type := {
  ClusterSummaryStatus_Dependencies : option string;
  ClusterSummaryStatus_FeatureSummaries : option (list FeatureSummary)
}.

Record ClusterSummary : Type := {
  ClusterSummary_ObjectMeta : ObjectMeta;
  ClusterSummary_Spec : ClusterSummarySpec;
  ClusterSummary_Status : ClusterSummaryStatus
}.

Record HealthCheckReport : Type := {
  HealthCheckReport_ObjectMeta : ObjectMeta;
  HealthCheckReport_Spec : HealthCheckReportSpec
}.

Record HealthCheck : Type := {
  HealthCheck_ObjectMeta : ObjectMeta;
  HealthCheck_Spec : HealthCheckSpec
}.

(** client.Object: the nil interface, or a pointer (possibly nil) whose
    dynamic type is one of the kinds. *)
Inductive Object : Type :=
  | Object_nil
  | Object_Cluster (p : option Cluster)
  | Object_Machine (p : option Machine)
  | Object_SveltosCluster (p : option SveltosCluster)
  | Object_ClusterSummary (p : option ClusterSummary)
  | Object_HealthCheckReport (p : option HealthCheckReport)
  | Object_HealthCheck (p : option HealthCheck).

(** The ObjectMeta embedded in the value an interface holds; reaching it
    through the nil interface or a nil pointer panics. *)
Definition Object_meta (o : Object) : Run ObjectMeta :=
  match o with
  | Object_nil => panic
  | Object_Cluster p => c ← deref p; mret (Cluster_ObjectMeta c)
  | Object_Machine p => m ← deref p; mret (Machine_ObjectMeta m)
  | Object_SveltosCluster p => c ← deref p; mret (SveltosCluster_ObjectMeta c)
  | Object_ClusterSummary p => c ← deref p; mret (ClusterSummary_ObjectMeta c)
  | Object_HealthCheckReport p => r ← deref p; mret (HealthCheckReport_ObjectMeta r)
  | Object_HealthCheck p => h ← deref p; mret (HealthCheck_ObjectMeta h)
  end.

Definition GetNamespace (o : Object) : Run string :=
  meta ← Object_meta o; mret (Namespace meta).

Definition GetName (o : Object) : Run string :=
  meta ← Object_meta o; mret (Name meta).

(** The same two getters called on a typed pointer. *)
Definition Cluster_GetNamespace (p : option Cluster) : Run string :=
  c ← deref p; mret (Namespace (Cluster_ObjectMeta c)).

Definition Cluster_GetName (p : option Cluster) : Run string :=
  c ← deref p; mret (Name (Cluster_ObjectMeta c)).

Definition Machine_GetNamespace (p : option Machine) : Run string :=
  m ← deref p; mret (Namespace (Machine_ObjectMeta m)).

Definition Machine_GetName (p : option Machine) : Run string :=
  m ← deref p; mret (Name (Machine_ObjectMeta m)).

(** Type assertions of an interface value to a pointer type: anything but a
    pointer of that dynamic type panics, the nil interface included; a nil
    pointer of that type passes. *)
Definition assert_SveltosCluster (o : Object) : Run (option SveltosCluster) :=
  match o with
  | Object_SveltosCluster p => mret p
  | _ => panic
  end.

Definition assert_ClusterSummary (o : Object) : Run (option ClusterSummary) :=
  match o with
  | Object_ClusterSummary p => mret p
  | _ => panic
  end.

Definition assert_HealthCheckReport (o : Object) : Run (option HealthCheckReport) :=
  match o with
  | Object_HealthCheckReport p => mret p
  | _ => panic
  end.

Definition assert_HealthCheck (o : Object) : Run (option HealthCheck) :=
  match o with
  | Object_HealthCheck p => mret p
  | _ => panic
  end.

(** ** ClusterPredicate *)

Record ClusterPredicate : Type := { ClusterPredicate_Logger : Logger }.

Definition ClusterPredicate_Create (p : ClusterPredicate)
    (obj : TypedCreateEvent (option Cluster)) : Run bool :=
  cluster ← deref (CreateObject obj);
  let log := WithValues (ClusterPredicate_Logger p)
    ["predicate"; "createEvent";
     "namespace"; Namespace (Cluster_ObjectMeta cluster);
     "cluster"; Name (Cluster_ObjectMeta cluster)] in
  if negb (ClusterSpec_Paused (Cluster_Spec cluster)) then
    Info (V log LogVerbose)
      "Cluster is not paused.  Will attempt to reconcile associated ClusterHealthChecks.";;
    mret true
  else
    Info (V log LogVerbose)
      "Cluster did not match expected conditions.  Will not attempt to reconcile associated ClusterHealthChecks.";;
    mret false.

Definition ClusterPredicate_Update (p : ClusterPredicate)
    (obj : TypedUpdateEvent (option Cluster)) : Run bool :=
  let newCluster := ObjectNew obj in
  let oldCluster := ObjectOld obj in
  new ← deref newCluster;
  let log := WithValues (ClusterPredicate_Logger p)
    ["predicate"; "updateEvent";
     "namespace"; Namespace (Cluster_ObjectMeta new);
     "cluster"; Name (Cluster_ObjectMeta new)] in
  match oldCluster with
  | None =>
      Info (V log LogVerbose) "Old Cluster is nil. Reconcile ClusterHealthCheck";;
      mret true
  | Some old =>
      if ClusterSpec_Paused (Cluster_Spec old) &&
         negb (ClusterSpec_Paused (Cluster_Spec new)) then
        Info (V log LogVerbose)
          "Cluster was unpaused. Will attempt to reconcile associated ClusterHealthChecks.";;
        mret true
      else if negb (DeepEqual_map (Labels (Cluster_ObjectMeta old))
                                  (Labels (Cluster_ObjectMeta new))) then
        Info (V log LogVerbose)
          "Cluster labels changed. Will attempt to reconcile associated ClusterHealthChecks.";;
        mret true
      else
        Info (V log LogVerbose)
          "Cluster did not match expected conditions.  Will not attempt to reconcile associated ClusterHealthChecks.";;
        mret false
  end.

Definition ClusterPredicate_Delete (p : ClusterPredicate)
    (obj : TypedDeleteEvent (option Cluster)) : Run bool :=
  namespace ← Cluster_GetNamespace (DeleteObject obj);
  name ← Cluster_GetName (DeleteObject obj);
  let log := WithValues (ClusterPredicate_Logger p)
    ["predicate"; "deleteEvent"; "namespace"; namespace; "cluster"; name] in
  Info (V log LogVerbose)
    "Cluster deleted.  Will attempt to reconcile associated ClusterHealthChecks.";;
  mret true.

Definition ClusterPredicate_Generic (p : ClusterPredicate)
    (obj : TypedGenericEvent (option Cluster)) : Run bool :=
  namespace ← Cluster_GetNamespace (GenericObject obj);
  name ← Cluster_GetName (GenericObject obj);
  let log := WithValues (ClusterPredicate_Logger p)
    ["predicate"; "genericEvent"; "namespace"; namespace; "cluster"; name] in
  Info (V log LogVerbose)
    "Cluster did not match expected conditions.  Will not attempt to reconcile associated ClusterHealthChecks.";;
  mret false.

Definition ClusterPredicate_predicate (p : ClusterPredicate)
    : TypedPredicate (option Cluster) :=
  {| Create := ClusterPredicate_Create p;
     Update := ClusterPredicate_Update p;
     Delete := ClusterPredicate_Delete p;
     Generic := ClusterPredicate_Generic p |}.

(** ** MachinePredicate *)

Record MachinePredicate : Type := { MachinePredicate_Logger : Logger }.

Definition MachinePredicate_Create (p : MachinePredicate)
    (obj : TypedCreateEvent (option Machine)) : Run bool :=
  machine ← deref (CreateObject obj);
  let log := WithValues (MachinePredicate_Logger p)
    ["predicate"; "createEvent";
     "namespace"; Namespace (Machine_ObjectMeta machine);
     "machine"; Name (Machine_ObjectMeta machine)] in
  if String.eqb (GetTypedPhase (Machine_Status machine)) MachinePhaseRunning then
    mret true
  else
    Info (V log LogVerbose)
      "Machine did not match expected conditions.  Will not attempt to reconcile associated ClusterHealthChecks.";;
    mret false.

Definition MachinePredicate_Update (p : MachinePredicate)
    (obj : TypedUpdateEvent (option Machine)) : Run bool :=
  let newMachine := ObjectNew obj in
  let oldMachine := ObjectOld obj in
  new ← deref newMachine;
  let log := WithValues (MachinePredicate_Logger p)
    ["predicate"; "updateEvent";
     "namespace"; Namespace (Machine_ObjectMeta new);
     "machine"; Name (Machine_ObjectMeta new)] in
  if negb (String.eqb (GetTypedPhase (Machine_Status new)) MachinePhaseRunning) then
    mret false
  else
    match oldMachine with
    | None =>
        Info (V log LogVerbose) "Old Machine is nil. Reconcile ClusterHealthCheck";;
        mret true
    | Some old =>
        if negb (String.eqb (GetTypedPhase (Machine_Status old))
                            (GetTypedPhase (Machine_Status new))) then
          Info (V log LogVerbose)
            "Machine was not in Running Phase. Will attempt to reconcile associated ClusterHealthChecks.";;
          mret true
        else
          Info (V log LogVerbose)
            "Machine did not match expected conditions.  Will not attempt to reconcile associated ClusterHealthChecks.";;
          mret false
    end.

Definition MachinePredicate_Delete (p : MachinePredicate)
    (obj : TypedDeleteEvent (option Machine)) : Run bool :=
  namespace ← Machine_GetNamespace (DeleteObject obj);
  name ← Machine_GetName (DeleteObject obj);
  let log := WithValues (MachinePredicate_Logger p)
    ["predicate"; "deleteEvent"; "namespace"; namespace; "machine"; name] in
  Info (V log LogVerbose)
    "Machine did not match expected conditions.  Will not attempt to reconcile associated ClusterHealthChecks.";;
  mret false.

Definition MachinePredicate_Generic (p : MachinePredicate)
    (obj : TypedGenericEvent (option Machine)) : Run bool :=
  namespace ← Machine_GetNamespace (GenericObject obj);
  name ← Machine_GetName (GenericObject obj);
  let log := WithValues (MachinePredicate_Logger p)
    ["predicate"; "genericEvent"; "namespace"; namespace; "machine"; name] in
  Info (V log LogVerbose)
    "Machine did not match expected conditions.  Will not attempt to reconcile associated ClusterHealthChecks.";;
  mret false.

Definition MachinePredicate_predicate (p : MachinePredicate)
    : TypedPredicate (option Machine) :=
  {| Create := MachinePredicate_Create p;
     Update := MachinePredicate_Update p;
     Delete := MachinePredicate_Delete p;
     Generic := MachinePredicate_Generic p |}.

(** ** SveltosClusterPredicates *)

Definition SveltosClusterPredicates (logger : Logger) : TypedPredicate Object :=
  {| Update := fun e =>
       newCluster ← assert_SveltosCluster (ObjectNew e);
       oldCluster ← assert_SveltosCluster (ObjectOld e);
       new ← deref newCluster;
       let log := WithValues logger
         ["predicate"; "updateEvent";
          "namespace"; Namespace (SveltosCluster_ObjectMeta new);
          "cluster"; Name (SveltosCluster_ObjectMeta new)] in
       match oldCluster with
       | None =>
           Info (V log LogVerbose) "Old Cluster is nil. Reconcile ClusterHealthCheck";;
           mret true
       | Some old =>
           if SveltosClusterSpec_Paused (SveltosCluster_Spec old) &&
              negb (SveltosClusterSpec_Paused (SveltosCluster_Spec new)) then
             Info (V log LogVerbose)
               "Cluster was unpaused. Will attempt to reconcile associated ClusterHealthChecks.";;
             mret true
           else if negb (SveltosClusterStatus_Ready (SveltosCluster_Status old)) &&
                   SveltosClusterStatus_Ready (SveltosCluster_Status new) then
             Info (V log LogVerbose)
               "Cluster was not ready. Will attempt to reconcile associated ClusterHealthChecks.";;
             mret true
           else if negb (DeepEqual_map (Labels (SveltosCluster_ObjectMeta old))
                                       (Labels (SveltosCluster_ObjectMeta new))) then
             Info (V log LogVerbose)
               "Cluster labels changed. Will attempt to reconcile associated ClusterHealthChecks.";;
             mret true
           else
             Info (V log LogVerbose)
               "Cluster did not match expected conditions.  Will not attempt to reconcile associated ClusterHealthChecks.";;
             mret false
       end;
     Create := fun e =>
       p ← assert_SveltosCluster (CreateObject e);
       cluster ← deref p;
       let log := WithValues logger
         ["predicate"; "createEvent";
          "namespace"; Namespace (SveltosCluster_ObjectMeta cluster);
          "cluster"; Name (SveltosCluster_ObjectMeta cluster)] in
       if negb (SveltosClusterSpec_Paused (SveltosCluster_Spec cluster)) then
         Info (V log LogVerbose)
           "Cluster is not paused.  Will attempt to reconcile associated ClusterHealthChecks.";;
         mret true
       else
         Info (V log LogVerbose)
           "Cluster did not match expected conditions.  Will not attempt to reconcile associated ClusterHealthChecks.";;
         mret false;
     Delete := fun e =>
       namespace ← GetNamespace (DeleteObject e);
       name ← GetName (DeleteObject e);
       let log := WithValues logger
         ["predicate"; "deleteEvent"; "namespace"; namespace; "cluster"; name] in
       Info (V log LogVerbose)
         "Cluster deleted.  Will attempt to reconcile associated ClusterHealthChecks.";;
       mret true;
     Generic := fun e =>
       namespace ← GetNamespace (GenericObject e);
       name ← GetName (GenericObject e);
       let log := WithValues logger
         ["predicate"; "genericEvent"; "namespace"; namespace; "cluster"; name] in
       Info (V log LogVerbose)
         "Cluster did not match expected conditions.  Will not attempt to reconcile associated ClusterHealthChecks.";;
       mret false |}.

(** ** ClusterSummaryPredicates *)

Definition ClusterSummaryPredicates (logger : Logger) : TypedPredicate Object :=
  {| Update := fun e =>
       newClusterSummary ← assert_ClusterSummary (ObjectNew e);
       oldClusterSummary ← assert_ClusterSummary (ObjectOld e);
       new ← deref newClusterSummary;
       let log := WithValues logger
         ["predicate"; "updateEvent";
          "namespace"; Namespace (ClusterSummary_ObjectMeta new);
          "clustersummary"; Name (ClusterSummary_ObjectMeta new)] in
       match oldClusterSummary with
       | None =>
           Info (V log LogVerbose) "Old ClusterSummary is nil. Reconcile ClusterHealthCheck";;
           mret true
       | Some old =>
           if negb (DeepEqual_slice DeepEqual_FeatureSummary
                      (ClusterSummaryStatus_FeatureSummaries (ClusterSummary_Status old))
                      (ClusterSummaryStatus_FeatureSummaries (ClusterSummary_Status new))) then
             Info (V log LogVerbose)
               "ClusterSummary Status.FeatureSummaries changed. Will attempt to reconcile associated ClusterHealthChecks.";;
             mret true
           else
             Info (V log LogVerbose)
               "ClusterSummary did not match expected conditions.  Will not attempt to reconcile associated ClusterHealthChecks.";;
             mret false
       end;
     Create := fun e =>
       namespace ← GetNamespace (CreateObject e);
       name ← GetName (CreateObject e);
       let log := WithValues logger
         ["predicate"; "createEvent"; "namespace"; namespace; "clustersummary"; name] in
       Info (V log LogVerbose)
         "ClusterSummary did not match expected conditions.  Will not attempt to reconcile associated ClusterHealthChecks.";;
       mret false;
     Delete := fun e =>
       namespace ← GetNamespace (DeleteObject e);
       name ← GetName (DeleteObject e);
       let log := WithValues logger
         ["predicate"; "deleteEvent"; "namespace"; namespace; "clustersummary"; name] in
       Info (V log LogVerbose)
         "ClusterSummary deleted.  Will attempt to reconcile associated ClusterHealthChecks.";;
       mret true;
     Generic := fun e =>
       namespace ← GetNamespace (GenericObject e);
       name ← GetName (GenericObject e);
       let log := WithValues logger
         ["predicate"; "genericEvent"; "namespace"; namespace; "clustersummary"; name] in
       Info (V log LogVerbose)
         "ClusterSummary did not match expected conditions.  Will not attempt to reconcile associated ClusterHealthChecks.";;
       mret false |}.

(** ** HealthCheckReportPredicates *)

Definition HealthCheckReportPredicates (logger : Logger) : TypedPredicate Object :=
  {| Update := fun e =>
       newHCR ← assert_HealthCheckReport (ObjectNew e);
       oldHCR ← assert_HealthCheckReport (ObjectOld e);
       new ← deref newHCR;
       let log := WithValues logger
         ["predicate"; "updateEvent";
          "namespace"; Namespace (HealthCheckReport_ObjectMeta new);
          "healthCheckReport"; Name (HealthCheckReport_ObjectMeta new)] in
       match oldHCR with
       | None =>
           Info (V log LogVerbose) "Old HealthCheckReport is nil. Reconcile ClusterHealthCheck";;
           mret true
       | Some old =>
           if negb (DeepEqual_HealthCheckReportSpec
                      (HealthCheckReport_Spec old) (HealthCheckReport_Spec new)) then
             Info (V log LogVerbose)
               "HealthCheckReport changed. Will attempt to reconcile associated ClusterHealthChecks.";;
             mret true
           else
             Info (V log LogVerbose)
               "HealthCheckReport did not match expected conditions.  Will not attempt to reconcile associated ClusterHealthChecks.";;
             mret false
       end;
     Create := fun e =>
       namespace ← GetNamespace (CreateObject e);
       name ← GetName (CreateObject e);
       let log := WithValues logger
         ["predicate"; "createEvent"; "namespace"; namespace; "healthCheckReport"; name] in
       Info (V log LogVerbose)
         "HealthCheckReport did match expected conditions.  Will attempt to reconcile associated ClusterHealthChecks.";;
       mret true;
     Delete := fun e =>
       namespace ← GetNamespace (DeleteObject e);
       name ← GetName (DeleteObject e);
       let log := WithValues logger
         ["predicate"; "deleteEvent"; "namespace"; namespace; "healthCheckReport"; name] in
       Info (V log LogVerbose)
         "HealthCheckReport deleted.  Will attempt to reconcile associated ClusterHealthChecks.";;
       mret true;
     Generic := fun e =>
       namespace ← GetNamespace (GenericObject e);
       name ← GetName (GenericObject e);
       let log := WithValues logger
         ["predicate"; "genericEvent"; "namespace"; namespace; "healthCheckReport"; name] in
       Info (V log LogVerbose)
         "HealthCheckReport did not match expected conditions.  Will not attempt to reconcile associated ClusterHealthChecks.";;
       mret false |}.

(** ** HealthCheckPredicates *)

Definition HealthCheckPredicates (logger : Logger) : TypedPredicate Object :=
  {| Update := fun e =>
       newHC ← assert_HealthCheck (ObjectNew e);
       oldHC ← assert_HealthCheck (ObjectOld e);
       new ← deref newHC;
       let log := WithValues logger
         ["predicate"; "updateEvent";
          "healthCheck"; Name (HealthCheck_ObjectMeta new)] in
       match oldHC with
       | None =>
           Info (V log LogVerbose) "Old HealthCheck is nil. Reconcile ClusterHealthCheck";;
           mret true
       | Some old =>
           if negb (DeepEqual_HealthCheckSpec
                      (HealthCheck_Spec old) (HealthCheck_Spec new)) then
             Info (V log LogVerbose)
               "HealthCheck changed. Will attempt to reconcile associated ClusterHealthChecks.";;
             mret true
           else
             Info (V log LogVerbose)
               "HealthCheck did not match expected conditions.  Will not attempt to reconcile associated ClusterHealthChecks.";;
             mret false
       end;
     Create := fun e =>
       name ← GetName (CreateObject e);
       let log := WithValues logger
         ["predicate"; "createEvent"; "healthCheck"; name] in
       Info (V log LogVerbose)
         "HealthCheck did match expected conditions.  Will attempt to reconcile associated ClusterHealthChecks.";;
       mret true;
     Delete := fun e =>
       name ← GetName (DeleteObject e);
       let log := WithValues logger
         ["predicate"; "deleteEvent"; "healthCheck"; name] in
       Info (V log LogVerbose)
         "HealthCheck deleted.  Will attempt to reconcile associated ClusterHealthChecks.";;
       mret true;
     Generic := fun e =>
       name ← GetName (GenericObject e);
       let log := WithValues logger
         ["predicate"; "genericEvent"; "healthCheck"; name] in
       Info (V log LogVerbose)
         "HealthCheck did not match expected conditions.  Will not attempt to reconcile associated ClusterHealthChecks.";;
       mret false |}.

(** * Properties *)

(** ** reflect.DeepEqual on label maps *)

Lemma DeepEqual_map_spec (x y : option (gmap string string)) :
  DeepEqual_map x y = true <-> x = y.
Proof.
  destruct x as [m1|], y as [m2|]; simpl; try (split; congruence).
  rewrite andb_true_iff, Nat.eqb_eq, forallb_forall. split.
  - intros [Hsize Hall]. f_equal.
    apply map_subseteq_size_eq; [|lia].
    apply map_subseteq_spec. intros k v Hk.
    apply elem_of_map_to_list, list_elem_of_In, Hall in Hk. simpl in Hk.
    destruct (m2 !! k) as [v2|]; [|discriminate].
    apply String.eqb_eq in Hk. by subst.
  - intros [= ->]. split; [done|].
    intros [k v] Hin. simpl.
    apply list_elem_of_In, elem_of_map_to_list in Hin. rewrite Hin.
    apply String.eqb_refl.
Qed.

Lemma DeepEqual_map_refl (x : option (gmap string string)) :
  DeepEqual_map x x = true.
Proof. by apply DeepEqual_map_spec. Qed.

Lemma DeepEqual_map_false (x y : option (gmap string string)) :
  DeepEqual_map x y = false <-> x <> y.
Proof.
  rewrite <- DeepEqual_map_spec. destruct (DeepEqual_map x y); split; congruence.
Qed.

Lemma labels_differ_iff (x y : option (gmap string string)) :
  x <> y <-> labelSet x <> labelSet y \/ is_nil x <> is_nil y.
Proof.
  destruct x as [m1|], y as [m2|]; simpl; split; intros H;
    first [ right; congruence | left; congruence | destruct H; congruence ].
Qed.

(** ** Verdicts of the update callbacks, both snapshots present *)

Ltac run_unfold :=
  repeat progress
    (cbn;
     unfold verdict, sink_after, mbind, mret, Run_bind, Run_ret, Info, deref, panic).

Ltac run_verdict :=
  run_unfold;
  repeat match goal with
         | |- context [if negb ?b then _ else _] => destruct b eqn:?; run_unfold
         | |- context [if ?b then _ else _] => destruct b eqn:?; run_unfold
         end;
  try reflexivity.

Lemma ClusterPredicate_Update_verdict p (old new : Cluster) s :
  verdict (ClusterPredicate_Update p {| ObjectOld := Some old; ObjectNew := Some new |}) s =
  Returns (ClusterSpec_Paused (Cluster_Spec old) && negb (ClusterSpec_Paused (Cluster_Spec new))
           || negb (DeepEqual_map (Labels (Cluster_ObjectMeta old))
                                  (Labels (Cluster_ObjectMeta new)))).
Proof. run_verdict. Qed.

Lemma SveltosCluster_Update_verdict logger (old new : SveltosCluster) s :
  verdict (Update (SveltosClusterPredicates logger)
             {| ObjectOld := Object_SveltosCluster (Some old);
                ObjectNew := Object_SveltosCluster (Some new) |}) s =
  Returns (SveltosClusterSpec_Paused (SveltosCluster_Spec old)
             && negb (SveltosClusterSpec_Paused (SveltosCluster_Spec new))
           || negb (SveltosClusterStatus_Ready (SveltosCluster_Status old))
                && SveltosClusterStatus_Ready (SveltosCluster_Status new)
           || negb (DeepEqual_map (Labels (SveltosCluster_ObjectMeta old))
                                  (Labels (SveltosCluster_ObjectMeta new)))).
Proof. run_verdict. Qed.

Lemma MachinePredicate_Update_verdict p (old new : Machine) s :
  verdict (MachinePredicate_Update p {| ObjectOld := Some old; ObjectNew := Some new |}) s =
  Returns (String.eqb (GetTypedPhase (Machine_Status new)) MachinePhaseRunning
           && negb (String.eqb (GetTypedPhase (Machine_Status old))
                               (GetTypedPhase (Machine_Status new)))).
Proof. run_verdict. Qed.

Lemma MachinePredicate_Update_nil_verdict p (new : Machine) s :
  verdict (MachinePredicate_Update p {| ObjectOld := None; ObjectNew := Some new |}) s =
  Returns (String.eqb (GetTypedPhase (Machine_Status new)) MachinePhaseRunning).
Proof. run_verdict. Qed.

Lemma ClusterSummary_Update_verdict logger (old new : ClusterSummary) s :
  verdict (Update (ClusterSummaryPredicates logger)
             {| ObjectOld := Object_ClusterSummary (Some old);
                ObjectNew := Object_ClusterSummary (Some new) |}) s =
  Returns (negb (DeepEqual_slice DeepEqual_FeatureSummary
                   (ClusterSummaryStatus_FeatureSummaries (ClusterSummary_Status old))
                   (ClusterSummaryStatus_FeatureSummaries (ClusterSummary_Status new)))).
Proof. run_verdict. Qed.

Lemma HealthCheckReport_Update_verdict logger (old new : HealthCheckReport) s :
  verdict (Update (HealthCheckReportPredicates logger)
             {| ObjectOld := Object_HealthCheckReport (Some old);
                ObjectNew := Object_HealthCheckReport (Some new) |}) s =
  Returns (negb (DeepEqual_HealthCheckReportSpec
                   (HealthCheckReport_Spec old) (HealthCheckReport_Spec new))).
Proof. run_verdict. Qed.

Lemma HealthCheck_Update_verdict logger (old new : HealthCheck) s :
  verdict (Update (HealthCheckPredicates logger)
             {| ObjectOld := Object_HealthCheck (Some old);
                ObjectNew := Object_HealthCheck (Some new) |}) s =
  Returns (negb (DeepEqual_HealthCheckSpec (HealthCheck_Spec old) (HealthCheck_Spec new))).
Proof. run_verdict. Qed.

(** The old object handed over as the nil interface never reaches the nil
    check: the type assertion panics first. *)
Lemma SveltosCluster_Update_nil_interface logger (new : SveltosCluster) s :
  verdict (Update (SveltosClusterPredicates logger)
             {| ObjectOld := Object_nil;
                ObjectNew := Object_SveltosCluster (Some new) |}) s = Panics.
Proof. run_verdict. Qed.

(** ** reflect.DeepEqual on slices *)

Lemma DeepEqual_elements_refl {A : Type} (eq : A -> A -> bool) (l : list A) :
  (forall a, In a l -> eq a a = true) -> DeepEqual_elements eq l l = true.
Proof.
  induction l as [|a l IH]; simpl; intros Hrefl; [reflexivity|].
  rewrite Hrefl by (left; reflexivity). simpl.
  apply IH. intros b Hb. apply Hrefl. right; exact Hb.
Qed.

Lemma DeepEqual_slice_refl {A : Type} (eq : A -> A -> bool) (x : option (list A)) :
  (forall a, eq a a = true) -> DeepEqual_slice eq x x = true.
Proof.
  intros Hrefl. destruct x as [l|]; simpl; [|reflexivity].
  rewrite Nat.eqb_refl. simpl. apply DeepEqual_elements_refl. auto.
Qed.

(** An entry added or removed is a difference. *)
Lemma DeepEqual_slice_length {A : Type} (eq : A -> A -> bool) (l1 l2 : list A) :
  length l1 <> length l2 -> DeepEqual_slice eq (Some l1) (Some l2) = false.
Proof.
  intros Hlen. simpl. apply Nat.eqb_neq in Hlen. by rewrite Hlen.
Qed.

(** An entry changed where it stands is a difference. *)
Lemma DeepEqual_slice_entry {A : Type} (eq : A -> A -> bool) (l1 l2 : list A) i a b :
  l1 !! i = Some a -> l2 !! i = Some b -> eq a b = false ->
  DeepEqual_slice eq (Some l1) (Some l2) = false.
Proof.
  intros H1 H2 Hab. simpl. apply andb_false_iff. right.
  revert l2 i H1 H2. induction l1 as [|x l1 IH]; intros [|y l2] [|i] H1 H2;
    simpl in *; try discriminate; try reflexivity.
  - injection H1 as ->. injection H2 as ->. by rewrite Hab.
  - apply andb_false_iff. right. by apply (IH l2 i).
Qed.

(** A nil slice and an empty one are different for reflect.DeepEqual. *)
Lemma DeepEqual_slice_nil_empty {A : Type} (eq : A -> A -> bool) :
  DeepEqual_slice eq None (Some []) = false.
Proof. reflexivity. Qed.

Lemma DeepEqual_elements_Forall2 {A : Type} (eq : A -> A -> bool) (l1 l2 : list A) :
  DeepEqual_elements eq l1 l2 = true <-> Forall2 (fun a b => eq a b = true) l1 l2.
Proof.
  revert l2. induction l1 as [|a l1 IH]; intros [|b l2]; simpl.
  - split; [constructor|reflexivity].
  - split; [discriminate|inversion 1].
  - split; [discriminate|inversion 1].
  - rewrite andb_true_iff, IH. split.
    + intros [Hab Hrest]. by constructor.
    + inversion 1; subst. by split.
Qed.

Lemma DeepEqual_slice_same_entries {A : Type} (eq : A -> A -> bool) (x y : option (list A)) :
  DeepEqual_slice eq x y = true <-> same_entries eq x y.
Proof.
  destruct x as [l1|], y as [l2|]; simpl; try (split; [discriminate|tauto]);
    [|tauto].
  rewrite andb_true_iff, DeepEqual_elements_Forall2, Nat.eqb_eq. split.
  - tauto.
  - intros H. split; [|exact H]. by eapply Forall2_length.
Qed.

(** What keeps two slices from having the same entries. *)
Lemma same_entries_is_nil {A : Type} (eq : A -> A -> bool) (x y : option (list A)) :
  same_entries eq x y -> is_nil x = is_nil y.
Proof. destruct x, y; simpl; tauto. Qed.

Lemma same_entries_length {A : Type} (eq : A -> A -> bool) (x y : option (list A)) :
  same_entries eq x y -> length (entries x) = length (entries y).
Proof.
  destruct x as [l1|], y as [l2|]; simpl; try tauto. apply Forall2_length.
Qed.

Lemma same_entries_lookup {A : Type} (eq : A -> A -> bool) (x y : option (list A)) i a b :
  same_entries eq x y ->
  entries x !! i = Some a -> entries y !! i = Some b -> eq a b = true.
Proof.
  destruct x as [l1|], y as [l2|]; simpl; try tauto; try discriminate.
  intros Hall Ha Hb. by apply (Forall2_lookup_lr _ l1 l2 i a b Hall).
Qed.

Lemma same_entries_refl {A : Type} (eq : A -> A -> bool) (x : option (list A)) :
  (forall a, In a (entries x) -> eq a a = true) -> same_entries eq x x.
Proof.
  destruct x as [l|]; simpl; [|tauto].
  induction l as [|a l IH]; intros Hrefl; constructor.
  - apply Hrefl. by left.
  - apply IH. intros b Hb. apply Hrefl. by right.
Qed.

(** ** The verdict does not depend on the log sink *)

Lemma sink_independent_ret {A : Type} (a : A) : sink_independent (mret a).
Proof. intros s1 s2. reflexivity. Qed.

Lemma sink_independent_panic {A : Type} : sink_independent (@panic A).
Proof. intros s1 s2. reflexivity. Qed.

Lemma sink_independent_Info l msg : sink_independent (Info l msg).
Proof. intros s1 s2. reflexivity. Qed.

Lemma sink_independent_deref {A : Type} (p : option A) : sink_independent (deref p).
Proof. destruct p; intros s1 s2; reflexivity. Qed.

Lemma sink_independent_bind {A B : Type} (m : Run A) (f : A -> Run B) :
  sink_independent m -> (forall a, sink_independent (f a)) ->
  sink_independent (m ≫= f).
Proof.
  intros Hm Hf s1 s2. specialize (Hm s1 s2).
  unfold verdict, mbind, Run_bind in *.
  destruct (m s1) as [[a1|] t1], (m s2) as [[a2|] t2]; simpl in Hm;
    try discriminate; try reflexivity.
  injection Hm as ->. apply Hf.
Qed.

Ltac sink_indep :=
  repeat first
    [ apply sink_independent_ret
    | apply sink_independent_panic
    | apply sink_independent_Info
    | apply sink_independent_deref
    | apply sink_independent_bind; [|intros ?]
    | match goal with
      | |- sink_independent (if ?b then _ else _) => destruct b
      | |- sink_independent (match ?x with _ => _ end) => destruct x
      end
    | progress unfold GetNamespace, GetName, Object_meta,
        Cluster_GetNamespace, Cluster_GetName, Machine_GetNamespace, Machine_GetName,
        assert_SveltosCluster, assert_ClusterSummary,
        assert_HealthCheckReport, assert_HealthCheck
    | progress cbn ].

Lemma ClusterPredicate_sink_independent p n :
  sink_independent (evaluate (ClusterPredicate_predicate p) n).
Proof.
  destruct n as [e|e|e|e]; cbn;
    [ unfold ClusterPredicate_Create | unfold ClusterPredicate_Update
    | unfold ClusterPredicate_Delete | unfold ClusterPredicate_Generic ];
    sink_indep.
Qed.

Lemma MachinePredicate_sink_independent p n :
  sink_independent (evaluate (MachinePredicate_predicate p) n).
Proof.
  destruct n as [e|e|e|e]; cbn;
    [ unfold MachinePredicate_Create | unfold MachinePredicate_Update
    | unfold MachinePredicate_Delete | unfold MachinePredicate_Generic ];
    sink_indep.
Qed.

Lemma SveltosClusterPredicates_sink_independent logger n :
  sink_independent (evaluate (SveltosClusterPredicates logger) n).
Proof. destruct n as [e|e|e|e]; cbn; sink_indep. Qed.

Lemma ClusterSummaryPredicates_sink_independent logger n :
  sink_independent (evaluate (ClusterSummaryPredicates logger) n).
Proof. destruct n as [e|e|e|e]; cbn; sink_indep. Qed.

Lemma HealthCheckReportPredicates_sink_independent logger n :
  sink_independent (evaluate (HealthCheckReportPredicates logger) n).
Proof. destruct n as [e|e|e|e]; cbn; sink_indep. Qed.

Lemma HealthCheckPredicates_sink_independent logger n :
  sink_independent (evaluate (HealthCheckPredicates logger) n).
Proof. destruct n as [e|e|e|e]; cbn; sink_indep. Qed.

(** ** The decision tables *)

Lemma returns_iff_intro (b : bool) (P : Prop) :
  (b = true <-> P) -> returns_iff (Returns b) P.
Proof. intros H. exists b. split; [reflexivity|exact H]. Qed.

Lemma deterministic_run_twice {T : Type} (P : TypedPredicate T) :
  deterministic P ->
  forall n s, verdict (evaluate P n) (sink_after (evaluate P n) s)
              = verdict (evaluate P n) s.
Proof. intros H n s. apply H. Qed.

(** C1, as amended: an Update whose old snapshot is a nil pointer and whose
    new snapshot is present returns true for the cluster, sveltos-cluster,
    cluster-summary, health-check-report and health-check predicates,
    whatever the new snapshot holds; for the machine predicate it returns
    true exactly when the phase of the new snapshot is Running, and false
    otherwise. *)
Theorem Update_nil_old :
  (forall p (new : Cluster) s,
     verdict (ClusterPredicate_Update p
                {| ObjectOld := None; ObjectNew := Some new |}) s = Returns true) /\
  (forall logger (new : SveltosCluster) s,
     verdict (Update (SveltosClusterPredicates logger)
                {| ObjectOld := Object_SveltosCluster None;
                   ObjectNew := Object_SveltosCluster (Some new) |}) s = Returns true) /\
  (forall logger (new : ClusterSummary) s,
     verdict (Update (ClusterSummaryPredicates logger)
                {| ObjectOld := Object_ClusterSummary None;
                   ObjectNew := Object_ClusterSummary (Some new) |}) s = Returns true) /\
  (forall logger (new : HealthCheckReport) s,
     verdict (Update (HealthCheckReportPredicates logger)
                {| ObjectOld := Object_HealthCheckReport None;
                   ObjectNew := Object_HealthCheckReport (Some new) |}) s = Returns true) /\
  (forall logger (new : HealthCheck) s,
     verdict (Update (HealthCheckPredicates logger)
                {| ObjectOld := Object_HealthCheck None;
                   ObjectNew := Object_HealthCheck (Some new) |}) s = Returns true) /\
  (forall p (new : Machine) s,
     returns_iff
       (verdict (MachinePredicate_Update p
                   {| ObjectOld := None; ObjectNew := Some new |}) s)
       (GetTypedPhase (Machine_Status new) = MachinePhaseRunning)).
Proof.
  repeat split; intros; try (run_verdict; fail).
  rewrite MachinePredicate_Update_nil_verdict.
  apply returns_iff_intro, String.eqb_eq.
Qed.

(** C2, as amended: with both snapshots present, a cluster Update returns
    true if and only if the pause flag went from paused to unpaused, or (for
    the sveltos cluster, which has a readiness flag) readiness went from
    false to true, or the label maps differ for reflect.DeepEqual, that is
    they hold different key/value sets or exactly one of them is nil; in
    every other case it returns false. *)
Theorem cluster_Update_relevant_iff :
  (forall p (old new : Cluster) s,
     returns_iff
       (verdict (ClusterPredicate_Update p
                   {| ObjectOld := Some old; ObjectNew := Some new |}) s)
       ((ClusterSpec_Paused (Cluster_Spec old) = true /\
         ClusterSpec_Paused (Cluster_Spec new) = false) \/
        labelSet (Labels (Cluster_ObjectMeta old))
          <> labelSet (Labels (Cluster_ObjectMeta new)) \/
        is_nil (Labels (Cluster_ObjectMeta old))
          <> is_nil (Labels (Cluster_ObjectMeta new)))) /\
  (forall logger (old new : SveltosCluster) s,
     returns_iff
       (verdict (Update (SveltosClusterPredicates logger)
                   {| ObjectOld := Object_SveltosCluster (Some old);
                      ObjectNew := Object_SveltosCluster (Some new) |}) s)
       ((SveltosClusterSpec_Paused (SveltosCluster_Spec old) = true /\
         SveltosClusterSpec_Paused (SveltosCluster_Spec new) = false) \/
        (SveltosClusterStatus_Ready (SveltosCluster_Status old) = false /\
         SveltosClusterStatus_Ready (SveltosCluster_Status new) = true) \/
        labelSet (Labels (SveltosCluster_ObjectMeta old))
          <> labelSet (Labels (SveltosCluster_ObjectMeta new)) \/
        is_nil (Labels (SveltosCluster_ObjectMeta old))
          <> is_nil (Labels (SveltosCluster_ObjectMeta new)))).
Proof.
  split; intros.
  - rewrite ClusterPredicate_Update_verdict. apply returns_iff_intro.
    rewrite orb_true_iff, andb_true_iff, !negb_true_iff,
      DeepEqual_map_false, labels_differ_iff.
    tauto.
  - rewrite SveltosCluster_Update_verdict. apply returns_iff_intro.
    rewrite !orb_true_iff, !andb_true_iff, !negb_true_iff,
      DeepEqual_map_false, labels_differ_iff.
    tauto.
Qed.

(** C3: a machine Update whose new snapshot is not in the Running phase
    returns false; when the new phase is Running and the old snapshot is
    present it returns true if and only if the old phase was not Running;
    an update that stays in the Running phase returns false, whatever else
    changed on the machine. *)
Theorem MachinePredicate_Update_phase :
  (forall p (oldMachine : option Machine) (new : Machine) s,
     GetTypedPhase (Machine_Status new) <> MachinePhaseRunning ->
     verdict (MachinePredicate_Update p
                {| ObjectOld := oldMachine; ObjectNew := Some new |}) s
     = Returns false) /\
  (forall p (old new : Machine) s,
     GetTypedPhase (Machine_Status new) = MachinePhaseRunning ->
     returns_iff
       (verdict (MachinePredicate_Update p
                   {| ObjectOld := Some old; ObjectNew := Some new |}) s)
       (GetTypedPhase (Machine_Status old) <> MachinePhaseRunning)) /\
  (forall p (old new : Machine) s,
     GetTypedPhase (Machine_Status old) = MachinePhaseRunning ->
     GetTypedPhase (Machine_Status new) = MachinePhaseRunning ->
     verdict (MachinePredicate_Update p
                {| ObjectOld := Some old; ObjectNew := Some new |}) s
     = Returns false).
Proof.
  repeat split.
  - intros p [old|] new s Hnew; apply String.eqb_neq in Hnew.
    + rewrite MachinePredicate_Update_verdict, Hnew. reflexivity.
    + rewrite MachinePredicate_Update_nil_verdict, Hnew. reflexivity.
  - intros p old new s Hnew.
    rewrite MachinePredicate_Update_verdict, Hnew. apply returns_iff_intro.
    rewrite String.eqb_refl, andb_true_l, negb_true_iff. apply String.eqb_neq.
  - intros p old new s Hold Hnew.
    rewrite MachinePredicate_Update_verdict, Hold, Hnew. reflexivity.
Qed.

(** C4: a machine Create returns true if and only if the machine is in the
    Running phase when it is created; a machine Delete returns false. *)
Theorem MachinePredicate_Create_Delete :
  (forall p (machine : Machine) s,
     returns_iff
       (verdict (MachinePredicate_Create p {| CreateObject := Some machine |}) s)
       (GetTypedPhase (Machine_Status machine) = MachinePhaseRunning)) /\
  (forall p (machine : Machine) unknown s,
     verdict (MachinePredicate_Delete p
                {| DeleteObject := Some machine; DeleteStateUnknown := unknown |}) s
     = Returns false).
Proof.
  split; intros.
  - assert (verdict (MachinePredicate_Create p {| CreateObject := Some machine |}) s
            = Returns (String.eqb (GetTypedPhase (Machine_Status machine))
                                  MachinePhaseRunning)) as -> by run_verdict.
    apply returns_iff_intro, String.eqb_eq.
  - run_verdict.
Qed.

(** C5: a Generic (resync) notification returns false for every watched
    kind, whatever the object holds. *)
Theorem Generic_returns_false :
  (forall p (cluster : Cluster) s,
     verdict (ClusterPredicate_Generic p {| GenericObject := Some cluster |}) s
     = Returns false) /\
  (forall p (machine : Machine) s,
     verdict (MachinePredicate_Generic p {| GenericObject := Some machine |}) s
     = Returns false) /\
  (forall logger (cluster : SveltosCluster) s,
     verdict (Generic (SveltosClusterPredicates logger)
                {| GenericObject := Object_SveltosCluster (Some cluster) |}) s
     = Returns false) /\
  (forall logger (summary : ClusterSummary) s,
     verdict (Generic (ClusterSummaryPredicates logger)
                {| GenericObject := Object_ClusterSummary (Some summary) |}) s
     = Returns false) /\
  (forall logger (report : HealthCheckReport) s,
     verdict (Generic (HealthCheckReportPredicates logger)
                {| GenericObject := Object_HealthCheckReport (Some report) |}) s
     = Returns false) /\
  (forall logger (hc : HealthCheck) s,
     verdict (Generic (HealthCheckPredicates logger)
                {| GenericObject := Object_HealthCheck (Some hc) |}) s
     = Returns false).
Proof. repeat split; intros; run_verdict. Qed.

(** C6: for the health-check-report predicate and for the health-check
    predicate alike, Create returns true, Delete returns true, and an Update
    with both snapshots present returns true if and only if reflect.DeepEqual
    finds the old and the new Spec different. *)
Theorem HealthCheck_predicates_table :
  ((forall logger (report : HealthCheckReport) s,
      verdict (Create (HealthCheckReportPredicates logger)
                 {| CreateObject := Object_HealthCheckReport (Some report) |}) s
      = Returns true) /\
   (forall logger (report : HealthCheckReport) unknown s,
      verdict (Delete (HealthCheckReportPredicates logger)
                 {| DeleteObject := Object_HealthCheckReport (Some report);
                    DeleteStateUnknown := unknown |}) s
      = Returns true) /\
   (forall logger (old new : HealthCheckReport) s,
      returns_iff
        (verdict (Update (HealthCheckReportPredicates logger)
                    {| ObjectOld := Object_HealthCheckReport (Some old);
                       ObjectNew := Object_HealthCheckReport (Some new) |}) s)
        (DeepEqual_HealthCheckReportSpec
           (HealthCheckReport_Spec old) (HealthCheckReport_Spec new) = false))) /\
  ((forall logger (hc : HealthCheck) s,
      verdict (Create (HealthCheckPredicates logger)
                 {| CreateObject := Object_HealthCheck (Some hc) |}) s
      = Returns true) /\
   (forall logger (hc : HealthCheck) unknown s,
      verdict (Delete (HealthCheckPredicates logger)
                 {| DeleteObject := Object_HealthCheck (Some hc);
                    DeleteStateUnknown := unknown |}) s
      = Returns true) /\
   (forall logger (old new : HealthCheck) s,
      returns_iff
        (verdict (Update (HealthCheckPredicates logger)
                    {| ObjectOld := Object_HealthCheck (Some old);
                       ObjectNew := Object_HealthCheck (Some new) |}) s)
        (DeepEqual_HealthCheckSpec
           (HealthCheck_Spec old) (HealthCheck_Spec new) = false))).
Proof.
  repeat split; intros; try (run_verdict; fail).
  - rewrite HealthCheckReport_Update_verdict.
    apply returns_iff_intro, negb_true_iff.
  - rewrite HealthCheck_Update_verdict.
    apply returns_iff_intro, negb_true_iff.
Qed.

Lemma ClusterSummary_Update_same logger (old new : ClusterSummary) s :
  same_entries DeepEqual_FeatureSummary
    (ClusterSummaryStatus_FeatureSummaries (ClusterSummary_Status old))
    (ClusterSummaryStatus_FeatureSummaries (ClusterSummary_Status new)) ->
  verdict (Update (ClusterSummaryPredicates logger)
             {| ObjectOld := Object_ClusterSummary (Some old);
                ObjectNew := Object_ClusterSummary (Some new) |}) s
  = Returns false.
Proof.
  intros Hsame. apply DeepEqual_slice_same_entries in Hsame.
  by rewrite ClusterSummary_Update_verdict, Hsame.
Qed.

Lemma ClusterSummary_Update_differs logger (old new : ClusterSummary) s :
  ~ same_entries DeepEqual_FeatureSummary
      (ClusterSummaryStatus_FeatureSummaries (ClusterSummary_Status old))
      (ClusterSummaryStatus_FeatureSummaries (ClusterSummary_Status new)) ->
  verdict (Update (ClusterSummaryPredicates logger)
             {| ObjectOld := Object_ClusterSummary (Some old);
                ObjectNew := Object_ClusterSummary (Some new) |}) s
  = Returns true.
Proof.
  intros Hdiff. rewrite ClusterSummary_Update_verdict.
  destruct (DeepEqual_slice _ _ _) eqn:Heq; [|reflexivity].
  by apply DeepEqual_slice_same_entries in Heq.
Qed.

(** C7: for the cluster-summary predicate Create returns false, Delete
    returns true, and an Update with both snapshots present returns true if
    and only if the old and the new Status.FeatureSummaries differ by deep
    structural comparison, that is, unless both slices are nil or both are
    non-nil with deeply equal entries at the same positions.  So an update
    that leaves the feature summaries alone returns false whatever else
    changed on the summary; an entry added or removed, an entry changed
    where it stands, and a slice going from nil to non-nil or back (an empty
    non-nil slice included) each return true. *)
Theorem ClusterSummary_predicates_table :
  (forall logger (summary : ClusterSummary) s,
     verdict (Create (ClusterSummaryPredicates logger)
                {| CreateObject := Object_ClusterSummary (Some summary) |}) s
     = Returns false) /\
  (forall logger (summary : ClusterSummary) unknown s,
     verdict (Delete (ClusterSummaryPredicates logger)
                {| DeleteObject := Object_ClusterSummary (Some summary);
                   DeleteStateUnknown := unknown |}) s
     = Returns true) /\
  (forall logger (old new : ClusterSummary) s,
     returns_iff
       (verdict (Update (ClusterSummaryPredicates logger)
                   {| ObjectOld := Object_ClusterSummary (Some old);
                      ObjectNew := Object_ClusterSummary (Some new) |}) s)
       (~ same_entries DeepEqual_FeatureSummary
            (ClusterSummaryStatus_FeatureSummaries (ClusterSummary_Status old))
            (ClusterSummaryStatus_FeatureSummaries (ClusterSummary_Status new)))) /\
  (forall logger meta meta' spec spec' dependencies dependencies' summaries summaries' s,
     same_entries DeepEqual_FeatureSummary summaries summaries' ->
     verdict (Update (ClusterSummaryPredicates logger)
                {| ObjectOld := Object_ClusterSummary (Some
                     {| ClusterSummary_ObjectMeta := meta;
                        ClusterSummary_Spec := spec;
                        ClusterSummary_Status :=
                          {| ClusterSummaryStatus_Dependencies := dependencies;
                             ClusterSummaryStatus_FeatureSummaries := summaries |} |});
                   ObjectNew := Object_ClusterSummary (Some
                     {| ClusterSummary_ObjectMeta := meta';
                        ClusterSummary_Spec := spec';
                        ClusterSummary_Status :=
                          {| ClusterSummaryStatus_Dependencies := dependencies';
                             ClusterSummaryStatus_FeatureSummaries := summaries' |} |}) |}) s
     = Returns false) /\
  (forall logger meta meta' spec spec' dependencies dependencies' summaries s,
     (forall a, In a (entries summaries) -> DeepEqual_FeatureSummary a a = true) ->
     verdict (Update (ClusterSummaryPredicates logger)
                {| ObjectOld := Object_ClusterSummary (Some
                     {| ClusterSummary_ObjectMeta := meta;
                        ClusterSummary_Spec := spec;
                        ClusterSummary_Status :=
                          {| ClusterSummaryStatus_Dependencies := dependencies;
                             ClusterSummaryStatus_FeatureSummaries := summaries |} |});
                   ObjectNew := Object_ClusterSummary (Some
                     {| ClusterSummary_ObjectMeta := meta';
                        ClusterSummary_Spec := spec';
                        ClusterSummary_Status :=
                          {| ClusterSummaryStatus_Dependencies := dependencies';
                             ClusterSummaryStatus_FeatureSummaries := summaries |} |}) |}) s
     = Returns false) /\
  (forall logger (old new : ClusterSummary) s,
     length (entries (ClusterSummaryStatus_FeatureSummaries (ClusterSummary_Status old)))
       <> length (entries (ClusterSummaryStatus_FeatureSummaries (ClusterSummary_Status new))) ->
     verdict (Update (ClusterSummaryPredicates logger)
                {| ObjectOld := Object_ClusterSummary (Some old);
                   ObjectNew := Object_ClusterSummary (Some new) |}) s
     = Returns true) /\
  (forall logger (old new : ClusterSummary) i a b s,
     entries (ClusterSummaryStatus_FeatureSummaries (ClusterSummary_Status old)) !! i
       = Some a ->
     entries (ClusterSummaryStatus_FeatureSummaries (ClusterSummary_Status new)) !! i
       = Some b ->
     DeepEqual_FeatureSummary a b = false ->
     verdict (Update (ClusterSummaryPredicates logger)
                {| ObjectOld := Object_ClusterSummary (Some old);
                   ObjectNew := Object_ClusterSummary (Some new) |}) s
     = Returns true) /\
  (forall logger (old new : ClusterSummary) s,
     is_nil (ClusterSummaryStatus_FeatureSummaries (ClusterSummary_Status old))
       <> is_nil (ClusterSummaryStatus_FeatureSummaries (ClusterSummary_Status new)) ->
     verdict (Update (ClusterSummaryPredicates logger)
                {| ObjectOld := Object_ClusterSummary (Some old);
                   ObjectNew := Object_ClusterSummary (Some new) |}) s
     = Returns true).
Proof.
  split; [|split; [|split; [|split; [|split; [|split; [|split]]]]]].
  - intros. run_verdict.
  - intros. run_verdict.
  - intros logger old new s.
    destruct (DeepEqual_slice DeepEqual_FeatureSummary
                (ClusterSummaryStatus_FeatureSummaries (ClusterSummary_Status old))
                (ClusterSummaryStatus_FeatureSummaries (ClusterSummary_Status new)))
      eqn:Heq.
    + apply DeepEqual_slice_same_entries in Heq.
      rewrite ClusterSummary_Update_same by done.
      apply returns_iff_intro. split; [discriminate|tauto].
    + assert (~ same_entries DeepEqual_FeatureSummary
                  (ClusterSummaryStatus_FeatureSummaries (ClusterSummary_Status old))
                  (ClusterSummaryStatus_FeatureSummaries (ClusterSummary_Status new)))
        as Hdiff
        by (intros Hsame; apply DeepEqual_slice_same_entries in Hsame; congruence).
      rewrite ClusterSummary_Update_differs by done.
      by apply returns_iff_intro.
  - intros. by apply ClusterSummary_Update_same.
  - intros. by apply ClusterSummary_Update_same, same_entries_refl.
  - intros logger old new s Hlen. apply ClusterSummary_Update_differs.
    intros Hsame. by apply same_entries_length in Hsame.
  - intros logger old new i a b s Ha Hb Hab. apply ClusterSummary_Update_differs.
    intros Hsame. rewrite (same_entries_lookup _ _ _ i a b Hsame Ha Hb) in Hab.
    discriminate.
  - intros logger old new s Hnil. apply ClusterSummary_Update_differs.
    intros Hsame. by apply same_entries_is_nil in Hsame.
Qed.

(** C8: for both cluster kinds a Create returns true if and only if the
    pause flag of the cluster is false, and a Delete returns true. *)
Theorem cluster_Create_Delete :
  ((forall p (cluster : Cluster) s,
      returns_iff
        (verdict (ClusterPredicate_Create p {| CreateObject := Some cluster |}) s)
        (ClusterSpec_Paused (Cluster_Spec cluster) = false)) /\
   (forall p (cluster : Cluster) unknown s,
      verdict (ClusterPredicate_Delete p
                 {| DeleteObject := Some cluster; DeleteStateUnknown := unknown |}) s
      = Returns true)) /\
  ((forall logger (cluster : SveltosCluster) s,
      returns_iff
        (verdict (Create (SveltosClusterPredicates logger)
                    {| CreateObject := Object_SveltosCluster (Some cluster) |}) s)
        (SveltosClusterSpec_Paused (SveltosCluster_Spec cluster) = false)) /\
   (forall logger (cluster : SveltosCluster) unknown s,
      verdict (Delete (SveltosClusterPredicates logger)
                 {| DeleteObject := Object_SveltosCluster (Some cluster);
                    DeleteStateUnknown := unknown |}) s
      = Returns true)).
Proof.
  repeat split; intros; try (run_verdict; fail).
  - assert (verdict (ClusterPredicate_Create p {| CreateObject := Some cluster |}) s
            = Returns (negb (ClusterSpec_Paused (Cluster_Spec cluster)))) as ->
      by run_verdict.
    apply returns_iff_intro, negb_true_iff.
  - assert (verdict (Create (SveltosClusterPredicates logger)
                       {| CreateObject := Object_SveltosCluster (Some cluster) |}) s
            = Returns (negb (SveltosClusterSpec_Paused (SveltosCluster_Spec cluster))))
      as -> by run_verdict.
    apply returns_iff_intro, negb_true_iff.
Qed.

(** C9: every predicate is deterministic: evaluating the same notification
    twice gives the same verdict in both runs, whatever the log sink holds
    at each of them. *)
Theorem predicates_deterministic :
  (forall p, deterministic (ClusterPredicate_predicate p)) /\
  (forall p, deterministic (MachinePredicate_predicate p)) /\
  (forall logger, deterministic (SveltosClusterPredicates logger)) /\
  (forall logger, deterministic (ClusterSummaryPredicates logger)) /\
  (forall logger, deterministic (HealthCheckReportPredicates logger)) /\
  (forall logger, deterministic (HealthCheckPredicates logger)).
Proof.
  unfold deterministic. repeat split; intros.
  - apply ClusterPredicate_sink_independent.
  - apply MachinePredicate_sink_independent.
  - apply SveltosClusterPredicates_sink_independent.
  - apply ClusterSummaryPredicates_sink_independent.
  - apply HealthCheckReportPredicates_sink_independent.
  - apply HealthCheckPredicates_sink_independent.
Qed.

(** C10: the verdict of a generic cluster Update with both snapshots
    present is determined by the old and new pause flag and the old and new
    label map: two such updates that agree on these four values get the same
    verdict; in particular an update that leaves the labels as they were,
    without the pause flag going from true to false, returns false whatever
    happened to the status. *)
Theorem ClusterPredicate_Update_paused_and_labels_only :
  (forall p1 p2 (old1 new1 old2 new2 : Cluster) s1 s2,
     ClusterSpec_Paused (Cluster_Spec old1) = ClusterSpec_Paused (Cluster_Spec old2) ->
     ClusterSpec_Paused (Cluster_Spec new1) = ClusterSpec_Paused (Cluster_Spec new2) ->
     Labels (Cluster_ObjectMeta old1) = Labels (Cluster_ObjectMeta old2) ->
     Labels (Cluster_ObjectMeta new1) = Labels (Cluster_ObjectMeta new2) ->
     verdict (ClusterPredicate_Update p1
                {| ObjectOld := Some old1; ObjectNew := Some new1 |}) s1
     = verdict (ClusterPredicate_Update p2
                  {| ObjectOld := Some old2; ObjectNew := Some new2 |}) s2) /\
  (forall p (old new : Cluster) s,
     ClusterSpec_Paused (Cluster_Spec old) && negb (ClusterSpec_Paused (Cluster_Spec new))
       = false ->
     Labels (Cluster_ObjectMeta old) = Labels (Cluster_ObjectMeta new) ->
     verdict (ClusterPredicate_Update p
                {| ObjectOld := Some old; ObjectNew := Some new |}) s
     = Returns false).
Proof.
  split.
  - intros p1 p2 old1 new1 old2 new2 s1 s2 Hold Hnew Hlold Hlnew.
    rewrite !ClusterPredicate_Update_verdict, Hold, Hnew, Hlold, Hlnew.
    reflexivity.
  - intros p old new s Hpaused Hlabels.
    rewrite ClusterPredicate_Update_verdict, Hpaused, Hlabels, DeepEqual_map_refl.
    reflexivity.
Qed.

(** * Beyond the decision tables *)

(** The object a notification is about: the new one for an Update. *)
Definition Notification_object {T : Type} (n : Notification T) : T :=
  match n with
  | OnCreate e => CreateObject e
  | OnUpdate e => ObjectNew e
  | OnDelete e => DeleteObject e
  | OnGeneric e => GenericObject e
  end.

(** The value every callback of the source gives to the key "predicate". *)
Definition Notification_eventName {T : Type} (n : Notification T) : string :=
  match n with
  | OnCreate _ => "createEvent"
  | OnUpdate _ => "updateEvent"
  | OnDelete _ => "deleteEvent"
  | OnGeneric _ => "genericEvent"
  end.

(** An interface value that holds a non-nil pointer, of whatever kind. *)
Definition Object_present (o : Object) : bool :=
  match o with
  | Object_nil => false
  | Object_Cluster p => negb (is_nil p)
  | Object_Machine p => negb (is_nil p)
  | Object_SveltosCluster p => negb (is_nil p)
  | Object_ClusterSummary p => negb (is_nil p)
  | Object_HealthCheckReport p => negb (is_nil p)
  | Object_HealthCheck p => negb (is_nil p)
  end.

(** ** Updates that change nothing *)

(** X1: an Update whose old and new snapshot are the same object, as an
    informer resync delivers it, returns false for the cluster, the sveltos
    cluster and the machine predicate. *)
Theorem Update_same_snapshot :
  (forall p (cluster : Cluster) s,
     verdict (ClusterPredicate_Update p
                {| ObjectOld := Some cluster; ObjectNew := Some cluster |}) s
     = Returns false) /\
  (forall logger (cluster : SveltosCluster) s,
     verdict (Update (SveltosClusterPredicates logger)
                {| ObjectOld := Object_SveltosCluster (Some cluster);
                   ObjectNew := Object_SveltosCluster (Some cluster) |}) s
     = Returns false) /\
  (forall p (machine : Machine) s,
     verdict (MachinePredicate_Update p
                {| ObjectOld := Some machine; ObjectNew := Some machine |}) s
     = Returns false).
Proof.
  repeat split; intros.
  - rewrite ClusterPredicate_Update_verdict, andb_negb_r, DeepEqual_map_refl.
    reflexivity.
  - rewrite SveltosCluster_Update_verdict, andb_negb_r, andb_negb_l,
      DeepEqual_map_refl.
    reflexivity.
  - rewrite MachinePredicate_Update_verdict, String.eqb_refl, andb_false_r.
    reflexivity.
Qed.

(** ** When the callbacks panic *)

Ltac by_cases :=
  run_verdict;
  try (split; intros; first [ discriminate | congruence | reflexivity ]).

(** X2: a callback of ClusterPredicate or MachinePredicate panics exactly
    when the object of the notification (the new object of an Update) is a
    nil pointer; a nil old object never makes it panic. *)
Theorem typed_predicates_panic_iff_nil :
  (forall p (n : Notification (option Cluster)) s,
     verdict (evaluate (ClusterPredicate_predicate p) n) s = Panics
     <-> Notification_object n = None) /\
  (forall p (n : Notification (option Machine)) s,
     verdict (evaluate (MachinePredicate_predicate p) n) s = Panics
     <-> Notification_object n = None).
Proof.
  split; intros p n s.
  - destruct n as [[[c|]]|[[old|] [new|]]|[[c|] u]|[[c|]]]; by_cases.
  - destruct n as [[[m|]]|[[old|] [new|]]|[[m|] u]|[[m|]]]; by_cases.
Qed.

Ltac cases_Object o := destruct o as [|[?|]|[?|]|[?|]|[?|]|[?|]|[?|]].

(** X3: the callbacks that narrow the event to a concrete kind panic exactly
    when the narrowing or the first read of the new object fails: an Update
    unless the new object is a non-nil pointer of the predicate's kind and
    the old object a pointer (nil or not) of the same kind; the Create of
    SveltosClusterPredicates unless the object is a non-nil sveltos cluster. *)
Theorem narrowing_callbacks_panic_iff :
  (forall logger e s,
     verdict (Update (SveltosClusterPredicates logger) e) s = Panics
     <-> ~ exists new old, ObjectNew e = Object_SveltosCluster (Some new) /\
                           ObjectOld e = Object_SveltosCluster old) /\
  (forall logger e s,
     verdict (Update (ClusterSummaryPredicates logger) e) s = Panics
     <-> ~ exists new old, ObjectNew e = Object_ClusterSummary (Some new) /\
                           ObjectOld e = Object_ClusterSummary old) /\
  (forall logger e s,
     verdict (Update (HealthCheckReportPredicates logger) e) s = Panics
     <-> ~ exists new old, ObjectNew e = Object_HealthCheckReport (Some new) /\
                           ObjectOld e = Object_HealthCheckReport old) /\
  (forall logger e s,
     verdict (Update (HealthCheckPredicates logger) e) s = Panics
     <-> ~ exists new old, ObjectNew e = Object_HealthCheck (Some new) /\
                           ObjectOld e = Object_HealthCheck old) /\
  (forall logger e s,
     verdict (Create (SveltosClusterPredicates logger) e) s = Panics
     <-> ~ exists cluster, CreateObject e = Object_SveltosCluster (Some cluster)).
Proof.
  split; [|split; [|split; [|split]]]; intros logger e s.
  5: destruct e as [o]; cases_Object o.
  1-4: destruct e as [old new]; cases_Object new; cases_Object old.
  all: run_verdict; split; intros H.
  all: first [ discriminate H
             | reflexivity
             | intros (? & ? & ? & ?); discriminate
             | intros (? & ?); discriminate
             | exfalso; apply H; eauto ].
Qed.

(** X4: the callbacks that never narrow the event only read the name (and
    namespace) for the log line: handed any non-nil object, of whatever
    kind, they return their fixed verdict, and handed the nil interface or a
    nil pointer they panic. *)
Theorem fixed_callbacks_any_kind :
  (forall logger o unknown s,
     verdict (Delete (SveltosClusterPredicates logger)
                {| DeleteObject := o; DeleteStateUnknown := unknown |}) s
     = if Object_present o then Returns true else Panics) /\
  (forall logger o s,
     verdict (Generic (SveltosClusterPredicates logger) {| GenericObject := o |}) s
     = if Object_present o then Returns false else Panics) /\
  (forall logger o s,
     verdict (Create (ClusterSummaryPredicates logger) {| CreateObject := o |}) s
     = if Object_present o then Returns false else Panics) /\
  (forall logger o unknown s,
     verdict (Delete (ClusterSummaryPredicates logger)
                {| DeleteObject := o; DeleteStateUnknown := unknown |}) s
     = if Object_present o then Returns true else Panics) /\
  (forall logger o s,
     verdict (Generic (ClusterSummaryPredicates logger) {| GenericObject := o |}) s
     = if Object_present o then Returns false else Panics) /\
  (forall logger o s,
     verdict (Create (HealthCheckReportPredicates logger) {| CreateObject := o |}) s
     = if Object_present o then Returns true else Panics) /\
  (forall logger o unknown s,
     verdict (Delete (HealthCheckReportPredicates logger)
                {| DeleteObject := o; DeleteStateUnknown := unknown |}) s
     = if Object_present o then Returns true else Panics) /\
  (forall logger o s,
     verdict (Generic (HealthCheckReportPredicates logger) {| GenericObject := o |}) s
     = if Object_present o then Returns false else Panics) /\
  (forall logger o s,
     verdict (Create (HealthCheckPredicates logger) {| CreateObject := o |}) s
     = if Object_present o then Returns true else Panics) /\
  (forall logger o unknown s,
     verdict (Delete (HealthCheckPredicates logger)
                {| DeleteObject := o; DeleteStateUnknown := unknown |}) s
     = if Object_present o then Returns true else Panics) /\
  (forall logger o s,
     verdict (Generic (HealthCheckPredicates logger) {| GenericObject := o |}) s
     = if Object_present o then Returns false else Panics).
Proof.
  repeat split; intros; cases_Object o; run_verdict.
Qed.

(** ** What a positive machine verdict tells *)

(** X5: whatever the operation and whatever the old snapshot, the machine
    predicate returns true only for a machine that is present and in the
    Running phase. *)
Theorem MachinePredicate_true_only_if_Running :
  forall p (n : Notification (option Machine)) s,
    verdict (evaluate (MachinePredicate_predicate p) n) s = Returns true ->
    exists machine,
      Notification_object n = Some machine /\
      GetTypedPhase (Machine_Status machine) = MachinePhaseRunning.
Proof.
  intros p n s.
  destruct n as [[[m|]]|[[old|] [new|]]|[[m|] u]|[[m|]]];
    run_verdict; intros H; try discriminate H;
    eexists; (split; [reflexivity|]); by apply String.eqb_eq.
Qed.

(** ** What the callbacks do to the log sink *)

(** The call leaves the verbosity of the sink alone and appends at most [k]
    lines to it; neither the lines it appends nor what it returns depend on
    the lines already there. *)
Definition logs_at_most (k : nat) {A : Type} (r : Run A) : Prop :=
  forall v, exists o d,
    length d <= k /\
    forall lines,
      r {| sink_verbosity := v; sink_lines := lines |}
      = (o, {| sink_verbosity := v; sink_lines := lines ++ d |}).

Lemma logs_at_most_ret k {A : Type} (a : A) : logs_at_most k (mret a).
Proof.
  intros v. exists (Returns a), []. split; [simpl; lia|].
  intros lines. rewrite app_nil_r. reflexivity.
Qed.

Lemma logs_at_most_panic k {A : Type} : logs_at_most k (@panic A).
Proof.
  intros v. exists Panics, []. split; [simpl; lia|].
  intros lines. rewrite app_nil_r. reflexivity.
Qed.

Lemma logs_at_most_deref k {A : Type} (p : option A) : logs_at_most k (deref p).
Proof. destruct p; [apply logs_at_most_ret | apply logs_at_most_panic]. Qed.

Lemma logs_at_most_Info l msg : logs_at_most 1 (Info l msg).
Proof.
  intros v. unfold Info. cbn.
  destruct (logger_level l <=? v).
  - eexists (Returns tt), [_]. split; [reflexivity|]. intros lines. reflexivity.
  - exists (Returns tt), []. split; [simpl; lia|].
    intros lines. rewrite app_nil_r. reflexivity.
Qed.

Lemma logs_at_most_bind k1 k2 {A B : Type} (m : Run A) (f : A -> Run B) :
  logs_at_most k1 m -> (forall a, logs_at_most k2 (f a)) ->
  logs_at_most (k1 + k2) (m ≫= f).
Proof.
  intros Hm Hf v. destruct (Hm v) as (o1 & d1 & Hk1 & Hrun1).
  destruct o1 as [a|].
  - destruct (Hf a v) as (o2 & d2 & Hk2 & Hrun2).
    exists o2, (d1 ++ d2). split; [rewrite length_app; lia|].
    intros lines. unfold mbind, Run_bind.
    rewrite Hrun1, Hrun2, app_assoc. reflexivity.
  - exists Panics, d1. split; [lia|].
    intros lines. unfold mbind, Run_bind. rewrite Hrun1. reflexivity.
Qed.

Ltac logs_one_line :=
  repeat first
    [ apply logs_at_most_ret
    | apply logs_at_most_panic
    | apply logs_at_most_deref
    | apply (logs_at_most_bind 1 0); [apply logs_at_most_Info | intros ?]
    | apply (logs_at_most_bind 0 1); [|intros ?]
    | apply (logs_at_most_bind 0 0); [|intros ?]
    | match goal with
      | |- logs_at_most _ (if ?b then _ else _) => destruct b
      | |- logs_at_most _ (match ?x with _ => _ end) => destruct x
      end
    | progress unfold GetNamespace, GetName, Object_meta,
        Cluster_GetNamespace, Cluster_GetName, Machine_GetNamespace, Machine_GetName,
        assert_SveltosCluster, assert_ClusterSummary,
        assert_HealthCheckReport, assert_HealthCheck
    | progress cbn ].

(** X6: every callback of every predicate leaves the verbosity of the log
    sink alone and appends at most one line to it, after the lines already
    there; the line and the verdict are the same whatever those lines are. *)
Theorem predicates_log_at_most_one_line :
  (forall p n, logs_at_most 1 (evaluate (ClusterPredicate_predicate p) n)) /\
  (forall p n, logs_at_most 1 (evaluate (MachinePredicate_predicate p) n)) /\
  (forall logger n, logs_at_most 1 (evaluate (SveltosClusterPredicates logger) n)) /\
  (forall logger n, logs_at_most 1 (evaluate (ClusterSummaryPredicates logger) n)) /\
  (forall logger n, logs_at_most 1 (evaluate (HealthCheckReportPredicates logger) n)) /\
  (forall logger n, logs_at_most 1 (evaluate (HealthCheckPredicates logger) n)).
Proof.
  repeat split; intros ? n; destruct n as [e|e|e|e]; cbn.
  1: unfold ClusterPredicate_Create.
  2: unfold ClusterPredicate_Update.
  3: unfold ClusterPredicate_Delete.
  4: unfold ClusterPredicate_Generic.
  5: unfold MachinePredicate_Create.
  6: unfold MachinePredicate_Update.
  7: unfold MachinePredicate_Delete.
  8: unfold MachinePredicate_Generic.
  all: logs_one_line.
Qed.

(** The call leaves the sink [s] exactly as it found it. *)
Definition silent_in (s : LogSink) {A : Type} (r : Run A) : Prop :=
  sink_after r s = s.

Lemma silent_in_ret s {A : Type} (a : A) : silent_in s (mret a).
Proof. reflexivity. Qed.

Lemma silent_in_panic s {A : Type} : silent_in s (@panic A).
Proof. reflexivity. Qed.

Lemma silent_in_deref s {A : Type} (p : option A) : silent_in s (deref p).
Proof. destruct p; reflexivity. Qed.

Lemma silent_in_Info s l msg :
  sink_verbosity s < logger_level l -> silent_in s (Info l msg).
Proof.
  intros Hlevel. unfold silent_in, sink_after, Info. cbn.
  apply Nat.leb_gt in Hlevel. by rewrite Hlevel.
Qed.

Lemma silent_in_bind s {A B : Type} (m : Run A) (f : A -> Run B) :
  silent_in s m -> (forall a, silent_in s (f a)) -> silent_in s (m ≫= f).
Proof.
  unfold silent_in, sink_after, mbind, Run_bind. intros Hm Hf.
  destruct (m s) as [[a|] s'] eqn:Hrun; simpl in Hm; subst s'; [apply Hf|reflexivity].
Qed.

Ltac stays_silent :=
  repeat first
    [ apply silent_in_ret
    | apply silent_in_panic
    | apply silent_in_deref
    | apply silent_in_Info; cbn; lia
    | apply silent_in_bind; [|intros ?]
    | match goal with
      | |- silent_in _ (if ?b then _ else _) => destruct b
      | |- silent_in _ (match ?x with _ => _ end) => destruct x
      end
    | progress unfold GetNamespace, GetName, Object_meta,
        Cluster_GetNamespace, Cluster_GetName, Machine_GetNamespace, Machine_GetName,
        assert_SveltosCluster, assert_ClusterSummary,
        assert_HealthCheckReport, assert_HealthCheck
    | progress cbn ].

(** X7: in a sink whose verbosity is below the level the predicates log at
    (the V-level of their logger plus logs.LogVerbose) no callback writes
    anything: the sink after the call is the sink before it. *)
Theorem predicates_silent_below_LogVerbose :
  (forall p n s,
     sink_verbosity s < logger_level (ClusterPredicate_Logger p) + LogVerbose ->
     sink_after (evaluate (ClusterPredicate_predicate p) n) s = s) /\
  (forall p n s,
     sink_verbosity s < logger_level (MachinePredicate_Logger p) + LogVerbose ->
     sink_after (evaluate (MachinePredicate_predicate p) n) s = s) /\
  (forall logger n s,
     sink_verbosity s < logger_level logger + LogVerbose ->
     sink_after (evaluate (SveltosClusterPredicates logger) n) s = s) /\
  (forall logger n s,
     sink_verbosity s < logger_level logger + LogVerbose ->
     sink_after (evaluate (ClusterSummaryPredicates logger) n) s = s) /\
  (forall logger n s,
     sink_verbosity s < logger_level logger + LogVerbose ->
     sink_after (evaluate (HealthCheckReportPredicates logger) n) s = s) /\
  (forall logger n s,
     sink_verbosity s < logger_level logger + LogVerbose ->
     sink_after (evaluate (HealthCheckPredicates logger) n) s = s).
Proof.
  repeat split; intros ? n s Hquiet;
    match goal with |- sink_after ?r s = s => change (silent_in s r) end;
    destruct n as [e|e|e|e]; cbn.
  1: unfold ClusterPredicate_Create.
  2: unfold ClusterPredicate_Update.
  3: unfold ClusterPredicate_Delete.
  4: unfold ClusterPredicate_Generic.
  5: unfold MachinePredicate_Create.
  6: unfold MachinePredicate_Update.
  7: unfold MachinePredicate_Delete.
  8: unfold MachinePredicate_Generic.
  all: stays_silent.
Qed.

Ltac cases_Notification n :=
  destruct n as [[o]|[old o]|[o unknown]|[o]].

Ltac cases_pointer o :=
  first [ cases_Object o | destruct o as [?|] ].

Ltac sink_cases :=
  run_unfold;
  repeat match goal with
         | |- context [if negb ?b then _ else _] => destruct b eqn:?; run_unfold
         | |- context [if ?b then _ else _] => destruct b eqn:?; run_unfold
         end.

(** X8: a callback that panics has not logged: every panic of the
    predicates (a nil object, a failed narrowing) comes before the first
    line is written, so the sink is left as it was. *)
Theorem predicates_panic_before_logging :
  (forall p n s,
     verdict (evaluate (ClusterPredicate_predicate p) n) s = Panics ->
     sink_after (evaluate (ClusterPredicate_predicate p) n) s = s) /\
  (forall p n s,
     verdict (evaluate (MachinePredicate_predicate p) n) s = Panics ->
     sink_after (evaluate (MachinePredicate_predicate p) n) s = s) /\
  (forall logger n s,
     verdict (evaluate (SveltosClusterPredicates logger) n) s = Panics ->
     sink_after (evaluate (SveltosClusterPredicates logger) n) s = s) /\
  (forall logger n s,
     verdict (evaluate (ClusterSummaryPredicates logger) n) s = Panics ->
     sink_after (evaluate (ClusterSummaryPredicates logger) n) s = s) /\
  (forall logger n s,
     verdict (evaluate (HealthCheckReportPredicates logger) n) s = Panics ->
     sink_after (evaluate (HealthCheckReportPredicates logger) n) s = s) /\
  (forall logger n s,
     verdict (evaluate (HealthCheckPredicates logger) n) s = Panics ->
     sink_after (evaluate (HealthCheckPredicates logger) n) s = s).
Proof.
  split; [|split; [|split; [|split; [|split]]]]; intros ? n s;
    cases_Notification n; try cases_pointer old; cases_pointer o;
    sink_cases; intros H; first [ discriminate H | reflexivity ].
Qed.

Ltac one_line_added H :=
  first
    [ apply app_inv_head in H; injection H as <-;
      split; [reflexivity | eexists; reflexivity]
    | exfalso; apply (f_equal (@length LogEntry)) in H;
      rewrite length_app in H; simpl in H; lia ].

(** X9: a line a callback adds to the sink is written at the V-level of the
    predicate's logger plus logs.LogVerbose, and its key/value pairs are
    those of that logger followed by the key "predicate" with the name of
    the callback that ran (createEvent, updateEvent, deleteEvent or
    genericEvent). *)
Theorem predicates_log_line_shape :
  (forall p n s e,
     sink_lines (sink_after (evaluate (ClusterPredicate_predicate p) n) s)
     = sink_lines s ++ [e] ->
     entry_level e = logger_level (ClusterPredicate_Logger p) + LogVerbose /\
     exists rest,
       entry_keysAndValues e
       = logger_values (ClusterPredicate_Logger p)
           ++ "predicate" :: Notification_eventName n :: rest) /\
  (forall p n s e,
     sink_lines (sink_after (evaluate (MachinePredicate_predicate p) n) s)
     = sink_lines s ++ [e] ->
     entry_level e = logger_level (MachinePredicate_Logger p) + LogVerbose /\
     exists rest,
       entry_keysAndValues e
       = logger_values (MachinePredicate_Logger p)
           ++ "predicate" :: Notification_eventName n :: rest) /\
  (forall logger n s e,
     sink_lines (sink_after (evaluate (SveltosClusterPredicates logger) n) s)
     = sink_lines s ++ [e] ->
     entry_level e = logger_level logger + LogVerbose /\
     exists rest,
       entry_keysAndValues e
       = logger_values logger ++ "predicate" :: Notification_eventName n :: rest) /\
  (forall logger n s e,
     sink_lines (sink_after (evaluate (ClusterSummaryPredicates logger) n) s)
     = sink_lines s ++ [e] ->
     entry_level e = logger_level logger + LogVerbose /\
     exists rest,
       entry_keysAndValues e
       = logger_values logger ++ "predicate" :: Notification_eventName n :: rest) /\
  (forall logger n s e,
     sink_lines (sink_after (evaluate (HealthCheckReportPredicates logger) n) s)
     = sink_lines s ++ [e] ->
     entry_level e = logger_level logger + LogVerbose /\
     exists rest,
       entry_keysAndValues e
       = logger_values logger ++ "predicate" :: Notification_eventName n :: rest) /\
  (forall logger n s e,
     sink_lines (sink_after (evaluate (HealthCheckPredicates logger) n) s)
     = sink_lines s ++ [e] ->
     entry_level e = logger_level logger + LogVerbose /\
     exists rest,
       entry_keysAndValues e
       = logger_values logger ++ "predicate" :: Notification_eventName n :: rest).
Proof.
  split; [|split; [|split; [|split; [|split]]]]; intros ? n s e;
    cases_Notification n; try cases_pointer old; cases_pointer o;
    sink_cases; intros H; one_line_added H.
Qed.

(** ** The two cluster predicates side by side *)

(** X10: on snapshots with the same pause flags and the same labels the
    sveltos cluster Update returns what the generic cluster Update returns,
    or true when readiness went from false to true: it is never the
    stricter of the two, and the two agree whenever readiness did not rise. *)
Theorem SveltosCluster_Update_extends_Cluster_Update :
  forall p logger (old new : Cluster) (sveltosOld sveltosNew : SveltosCluster) s s',
    ClusterSpec_Paused (Cluster_Spec old)
      = SveltosClusterSpec_Paused (SveltosCluster_Spec sveltosOld) ->
    ClusterSpec_Paused (Cluster_Spec new)
      = SveltosClusterSpec_Paused (SveltosCluster_Spec sveltosNew) ->
    Labels (Cluster_ObjectMeta old) = Labels (SveltosCluster_ObjectMeta sveltosOld) ->
    Labels (Cluster_ObjectMeta new) = Labels (SveltosCluster_ObjectMeta sveltosNew) ->
    exists b,
      verdict (ClusterPredicate_Update p
                 {| ObjectOld := Some old; ObjectNew := Some new |}) s
      = Returns b /\
      verdict (Update (SveltosClusterPredicates logger)
                 {| ObjectOld := Object_SveltosCluster (Some sveltosOld);
                    ObjectNew := Object_SveltosCluster (Some sveltosNew) |}) s'
      = Returns (b || negb (SveltosClusterStatus_Ready (SveltosCluster_Status sveltosOld))
                      && SveltosClusterStatus_Ready (SveltosCluster_Status sveltosNew)).
Proof.
  intros p logger old new sveltosOld sveltosNew s s' Hold Hnew Hlold Hlnew.
  rewrite ClusterPredicate_Update_verdict, SveltosCluster_Update_verdict.
  rewrite Hold, Hnew, Hlold, Hlnew.
  eexists. split; [reflexivity|]. f_equal.
  rewrite <- !orb_assoc. f_equal. apply orb_comm.
Qed.

(** ** Label edits *)

Lemma DeepEqual_map_label_added (x y : option (gmap string string)) k v :
  labelSet x !! k <> Some v ->
  labelSet y = <[k:=v]> (labelSet x) ->
  DeepEqual_map x y = false.
Proof.
  intros Hk Hy. apply DeepEqual_map_false. intros ->.
  apply Hk. rewrite Hy at 1. apply lookup_insert_eq.
Qed.

Lemma DeepEqual_map_label_removed (x y : option (gmap string string)) k :
  is_Some (labelSet x !! k) ->
  labelSet y = delete k (labelSet x) ->
  DeepEqual_map x y = false.
Proof.
  intros [v Hk] Hy. apply DeepEqual_map_false. intros ->.
  rewrite Hy, lookup_delete_eq in Hk. discriminate.
Qed.

(** X11: adding a label, giving a label another value and removing a label
    each make a cluster Update return true, for both cluster kinds and
    whatever the pause and readiness flags are; the first label put on a
    cluster whose label map was nil and the last label taken away, leaving
    the map empty or nil, are among them. *)
Theorem cluster_Update_label_edit :
  (forall p (old new : Cluster) k v s,
     labelSet (Labels (Cluster_ObjectMeta old)) !! k <> Some v ->
     labelSet (Labels (Cluster_ObjectMeta new))
       = <[k:=v]> (labelSet (Labels (Cluster_ObjectMeta old))) ->
     verdict (ClusterPredicate_Update p
                {| ObjectOld := Some old; ObjectNew := Some new |}) s
     = Returns true) /\
  (forall p (old new : Cluster) k s,
     is_Some (labelSet (Labels (Cluster_ObjectMeta old)) !! k) ->
     labelSet (Labels (Cluster_ObjectMeta new))
       = delete k (labelSet (Labels (Cluster_ObjectMeta old))) ->
     verdict (ClusterPredicate_Update p
                {| ObjectOld := Some old; ObjectNew := Some new |}) s
     = Returns true) /\
  (forall logger (old new : SveltosCluster) k v s,
     labelSet (Labels (SveltosCluster_ObjectMeta old)) !! k <> Some v ->
     labelSet (Labels (SveltosCluster_ObjectMeta new))
       = <[k:=v]> (labelSet (Labels (SveltosCluster_ObjectMeta old))) ->
     verdict (Update (SveltosClusterPredicates logger)
                {| ObjectOld := Object_SveltosCluster (Some old);
                   ObjectNew := Object_SveltosCluster (Some new) |}) s
     = Returns true) /\
  (forall logger (old new : SveltosCluster) k s,
     is_Some (labelSet (Labels (SveltosCluster_ObjectMeta old)) !! k) ->
     labelSet (Labels (SveltosCluster_ObjectMeta new))
       = delete k (labelSet (Labels (SveltosCluster_ObjectMeta old))) ->
     verdict (Update (SveltosClusterPredicates logger)
                {| ObjectOld := Object_SveltosCluster (Some old);
                   ObjectNew := Object_SveltosCluster (Some new) |}) s
     = Returns true).
Proof.
  split; [|split; [|split]].
  - intros p old new k v s Hk Hnew.
    rewrite ClusterPredicate_Update_verdict,
      (DeepEqual_map_label_added _ _ k v Hk Hnew).
    apply f_equal, orb_true_r.
  - intros p old new k s Hk Hnew.
    rewrite ClusterPredicate_Update_verdict,
      (DeepEqual_map_label_removed _ _ k Hk Hnew).
    apply f_equal, orb_true_r.
  - intros logger old new k v s Hk Hnew.
    rewrite SveltosCluster_Update_verdict,
      (DeepEqual_map_label_added _ _ k v Hk Hnew).
    apply f_equal, orb_true_r.
  - intros logger old new k s Hk Hnew.
    rewrite SveltosCluster_Update_verdict,
      (DeepEqual_map_label_removed _ _ k Hk Hnew).
    apply f_equal, orb_true_r.
Qed.

(** ** Feature summaries, entry by entry *)

(** X12: a ClusterSummary Update with both snapshots present returns true
    exactly when the feature summaries differ in structure: one slice is nil
    and the other is not, they have different lengths, or some position
    holds two entries that are not deeply equal. *)
Theorem ClusterSummary_Update_entries :
  forall logger (old new : ClusterSummary) s,
    returns_iff
      (verdict (Update (ClusterSummaryPredicates logger)
                  {| ObjectOld := Object_ClusterSummary (Some old);
                     ObjectNew := Object_ClusterSummary (Some new) |}) s)
      (~ same_entries DeepEqual_FeatureSummary
           (ClusterSummaryStatus_FeatureSummaries (ClusterSummary_Status old))
           (ClusterSummaryStatus_FeatureSummaries (ClusterSummary_Status new))).
Proof.
  intros. rewrite ClusterSummary_Update_verdict. apply returns_iff_intro.
  rewrite <- DeepEqual_slice_same_entries, negb_true_iff.
  destruct (DeepEqual_slice _ _ _); split; congruence.
Qed.

(** ** A whole history of one object *)

(** Successive snapshots of one object, paired old with new. *)
Fixpoint steps {T : Type} (prev : T) (rest : list T) : list (T * T) :=
  match rest with
  | [] => []
  | next :: rest' => (prev, next) :: steps next rest'
  end.

(** The snapshot the history ends with. *)
Fixpoint final {T : Type} (prev : T) (rest : list T) : T :=
  match rest with
  | [] => prev
  | next :: rest' => final next rest'
  end.

(** What the watch delivers for an object created as [first] and then
    updated through [rest]: one Create, then one Update per step. *)
Definition lifecycle {T O : Type} (wrap : T -> O) (first : T) (rest : list T)
    : list (Notification O) :=
  OnCreate {| CreateObject := wrap first |}
  :: map (fun step => OnUpdate {| ObjectOld := wrap step.1; ObjectNew := wrap step.2 |})
         (steps first rest).

Lemma steps_rise {T : Type} (good : T -> bool) (prev : T) (rest : list T) :
  good (final prev rest) = true ->
  good prev = true \/
  exists a b, In (a, b) (steps prev rest) /\ good a = false /\ good b = true.
Proof.
  revert prev. induction rest as [|next rest IH]; intros prev Hfinal; simpl in *.
  - by left.
  - destruct (IH next Hfinal) as [Hnext|(a & b & Hin & Ha & Hb)].
    + destruct (good prev) eqn:Hprev; [by left|].
      right. exists prev, next. auto.
    + right. exists a, b. auto.
Qed.

Lemma steps_change {T V : Type} `{EqDecision V} (f : T -> V) (prev : T) (rest : list T) :
  f (final prev rest) <> f prev ->
  exists a b, In (a, b) (steps prev rest) /\ f a <> f b.
Proof.
  revert prev. induction rest as [|next rest IH]; intros prev Hfinal; simpl in *.
  - done.
  - destruct (decide (f prev = f next)) as [Heq|Hne].
    + rewrite Heq in Hfinal. destruct (IH next Hfinal) as (a & b & Hin & Hab).
      exists a, b. auto.
    + exists prev, next. auto.
Qed.

Lemma lifecycle_Create {T O : Type} (wrap : T -> O) first rest :
  In (OnCreate {| CreateObject := wrap first |}) (lifecycle wrap first rest).
Proof. by left. Qed.

Lemma lifecycle_Update {T O : Type} (wrap : T -> O) first rest a b :
  In (a, b) (steps first rest) ->
  In (OnUpdate {| ObjectOld := wrap a; ObjectNew := wrap b |})
     (lifecycle wrap first rest).
Proof.
  intros Hin. right.
  apply (in_map (fun step => OnUpdate {| ObjectOld := wrap step.1;
                                         ObjectNew := wrap step.2 |})) in Hin.
  exact Hin.
Qed.

(** X13: no cluster ends up unpaused without a reconcile having been asked
    for: over any history of a cluster (its Create, then its Updates in
    order) whose last snapshot is unpaused, at least one notification
    returns true, for both cluster kinds. *)
Theorem cluster_unpaused_was_noticed :
  (forall p (first : Cluster) rest s,
     ClusterSpec_Paused (Cluster_Spec (final first rest)) = false ->
     exists n, In n (lifecycle Some first rest) /\
               verdict (evaluate (ClusterPredicate_predicate p) n) s = Returns true) /\
  (forall logger (first : SveltosCluster) rest s,
     SveltosClusterSpec_Paused (SveltosCluster_Spec (final first rest)) = false ->
     exists n, In n (lifecycle (fun c => Object_SveltosCluster (Some c)) first rest) /\
               verdict (evaluate (SveltosClusterPredicates logger) n) s = Returns true).
Proof.
  split.
  - intros p first rest s Hfinal.
    destruct (steps_rise (fun c => negb (ClusterSpec_Paused (Cluster_Spec c))) first rest)
      as [Hfirst|(a & b & Hin & Ha & Hb)].
    + by rewrite Hfinal.
    + eexists. split; [apply lifecycle_Create|].
      cbn. apply negb_true_iff in Hfirst. run_unfold. by rewrite Hfirst.
    + eexists. split; [by apply lifecycle_Update|].
      change (verdict (ClusterPredicate_Update p
                         {| ObjectOld := Some a; ObjectNew := Some b |}) s
              = Returns true).
      rewrite ClusterPredicate_Update_verdict.
      apply negb_false_iff in Ha. by rewrite Ha, Hb.
  - intros logger first rest s Hfinal.
    destruct (steps_rise
                (fun c => negb (SveltosClusterSpec_Paused (SveltosCluster_Spec c)))
                first rest)
      as [Hfirst|(a & b & Hin & Ha & Hb)].
    + by rewrite Hfinal.
    + eexists. split; [apply lifecycle_Create|].
      cbn. apply negb_true_iff in Hfirst. run_unfold. by rewrite Hfirst.
    + eexists. split; [by apply lifecycle_Update|].
      unfold evaluate. rewrite SveltosCluster_Update_verdict.
      apply negb_false_iff in Ha. by rewrite Ha, Hb.
Qed.

(** X14: no machine ends up Running without a reconcile having been asked
    for: over any history of a machine whose last snapshot is in the Running
    phase, at least one notification returns true. *)
Theorem machine_running_was_noticed :
  forall p (first : Machine) rest s,
    GetTypedPhase (Machine_Status (final first rest)) = MachinePhaseRunning ->
    exists n, In n (lifecycle Some first rest) /\
              verdict (evaluate (MachinePredicate_predicate p) n) s = Returns true.
Proof.
  intros p first rest s Hfinal.
  destruct (steps_rise
              (fun m => String.eqb (GetTypedPhase (Machine_Status m)) MachinePhaseRunning)
              first rest)
    as [Hfirst|(a & b & Hin & Ha & Hb)].
  - rewrite Hfinal. apply String.eqb_refl.
  - eexists. split; [apply lifecycle_Create|].
    cbn. run_unfold. by rewrite Hfirst.
  - eexists. split; [by apply lifecycle_Update|].
    change (verdict (MachinePredicate_Update p
                       {| ObjectOld := Some a; ObjectNew := Some b |}) s
            = Returns true).
    rewrite MachinePredicate_Update_verdict, Hb.
    apply String.eqb_eq in Hb. rewrite Hb in *. by rewrite Ha.
Qed.

(** X15: no relabelling goes unnoticed: over any history of a cluster whose
    last snapshot carries a label map different from the one it was created
    with, at least one Update returns true, for both cluster kinds. *)
Theorem cluster_relabelled_was_noticed :
  (forall p (first : Cluster) rest s,
     Labels (Cluster_ObjectMeta (final first rest)) <> Labels (Cluster_ObjectMeta first) ->
     exists old new,
       In (OnUpdate {| ObjectOld := Some old; ObjectNew := Some new |})
          (lifecycle Some first rest) /\
       verdict (ClusterPredicate_Update p
                  {| ObjectOld := Some old; ObjectNew := Some new |}) s
       = Returns true) /\
  (forall logger (first : SveltosCluster) rest s,
     Labels (SveltosCluster_ObjectMeta (final first rest))
       <> Labels (SveltosCluster_ObjectMeta first) ->
     exists old new,
       In (OnUpdate {| ObjectOld := Object_SveltosCluster (Some old);
                       ObjectNew := Object_SveltosCluster (Some new) |})
          (lifecycle (fun c => Object_SveltosCluster (Some c)) first rest) /\
       verdict (Update (SveltosClusterPredicates logger)
                  {| ObjectOld := Object_SveltosCluster (Some old);
                     ObjectNew := Object_SveltosCluster (Some new) |}) s
       = Returns true).
Proof.
  split.
  - intros p first rest s Hfinal.
    destruct (steps_change (fun c => Labels (Cluster_ObjectMeta c)) first rest Hfinal)
      as (a & b & Hin & Hab).
    exists a, b. split; [by apply (lifecycle_Update Some)|].
    rewrite ClusterPredicate_Update_verdict.
    apply DeepEqual_map_false in Hab. rewrite Hab. apply f_equal, orb_true_r.
  - intros logger first rest s Hfinal.
    destruct (steps_change (fun c => Labels (SveltosCluster_ObjectMeta c)) first rest Hfinal)
      as (a & b & Hin & Hab).
    exists a, b.
    split; [by apply (lifecycle_Update (fun c => Object_SveltosCluster (Some c)))|].
    rewrite SveltosCluster_Update_verdict.
    apply DeepEqual_map_false in Hab. rewrite Hab. apply f_equal, orb_true_r.
Qed.

(** X16: a sveltos cluster that was created not ready and ends up ready has
    had an Update return true on the way. *)
Theorem sveltos_cluster_ready_was_noticed :
  forall logger (first : SveltosCluster) rest s,
    SveltosClusterStatus_Ready (SveltosCluster_Status first) = false ->
    SveltosClusterStatus_Ready (SveltosCluster_Status (final first rest)) = true ->
    exists old new,
      In (OnUpdate {| ObjectOld := Object_SveltosCluster (Some old);
                      ObjectNew := Object_SveltosCluster (Some new) |})
         (lifecycle (fun c => Object_SveltosCluster (Some c)) first rest) /\
      verdict (Update (SveltosClusterPredicates logger)
                 {| ObjectOld := Object_SveltosCluster (Some old);
                    ObjectNew := Object_SveltosCluster (Some new) |}) s
      = Returns true.
Proof.
  intros logger first rest s Hfirst Hfinal.
  destruct (steps_rise (fun c => SveltosClusterStatus_Ready (SveltosCluster_Status c))
              first rest Hfinal)
    as [Hready|(a & b & Hin & Ha & Hb)]; [congruence|].
  exists a, b.
  split; [by apply (lifecycle_Update (fun c => Object_SveltosCluster (Some c)))|].
  rewrite SveltosCluster_Update_verdict, Ha, Hb. cbn.
  by rewrite orb_true_r.
Qed.

Lemma steps_In {T : Type} (prev : T) (rest : list T) a b :
  In (a, b) (steps prev rest) -> In a (prev :: rest) /\ In b (prev :: rest).
Proof.
  revert prev. induction rest as [|next rest IH]; intros prev Hin; simpl in Hin.
  - done.
  - destruct Hin as [[= <- <-]|Hin].
    + split; [by left | right; by left].
    + destruct (IH next Hin) as [Ha Hb]. split; by right.
Qed.

Lemma lifecycle_inv {T O : Type} (wrap : T -> O) first rest n :
  In n (lifecycle wrap first rest) ->
  n = OnCreate {| CreateObject := wrap first |} \/
  exists a b, In (a, b) (steps first rest) /\
              n = OnUpdate {| ObjectOld := wrap a; ObjectNew := wrap b |}.
Proof.
  intros [<-|Hin]; [by left|]. right.
  apply in_map_iff in Hin as ([a b] & <- & Hin). exists a, b. auto.
Qed.

(** X17: a cluster that is paused from its creation on and keeps the label
    map it was created with asks for no reconcile: every notification of its
    history returns false. *)
Theorem paused_cluster_stays_quiet :
  forall p (first : Cluster) rest s n,
    Forall (fun c => ClusterSpec_Paused (Cluster_Spec c) = true /\
                     Labels (Cluster_ObjectMeta c) = Labels (Cluster_ObjectMeta first))
           (first :: rest) ->
    In n (lifecycle Some first rest) ->
    verdict (evaluate (ClusterPredicate_predicate p) n) s = Returns false.
Proof.
  intros p first rest s n Hall Hin. rewrite List.Forall_forall in Hall.
  apply lifecycle_inv in Hin as [->|(a & b & Hin & ->)].
  - destruct (Hall first) as [Hpaused _]; [by left|].
    run_unfold. by rewrite Hpaused.
  - apply steps_In in Hin as [Ha Hb].
    destruct (Hall a Ha) as [_ Hla]. destruct (Hall b Hb) as [Hpb Hlb].
    change (verdict (ClusterPredicate_Update p
                       {| ObjectOld := Some a; ObjectNew := Some b |}) s
            = Returns false).
    rewrite ClusterPredicate_Update_verdict, Hpb, Hla, Hlb, DeepEqual_map_refl.
    by rewrite andb_false_r.
Qed.

(** X18: if a machine is never in the Running phase, its Create and every
    Update of its history return false; if it is Running in every snapshot,
    its Create returns true and every Update after it returns false. *)
Theorem machine_history_verdicts :
  (forall p (first : Machine) rest s n,
     Forall (fun m => GetTypedPhase (Machine_Status m) <> MachinePhaseRunning)
            (first :: rest) ->
     In n (lifecycle Some first rest) ->
     verdict (evaluate (MachinePredicate_predicate p) n) s = Returns false) /\
  (forall p (first : Machine) rest s n,
     Forall (fun m => GetTypedPhase (Machine_Status m) = MachinePhaseRunning)
            (first :: rest) ->
     In n (lifecycle Some first rest) ->
     verdict (evaluate (MachinePredicate_predicate p) n) s
     = Returns (match n with OnCreate _ => true | _ => false end)).
Proof.
  split; intros p first rest s n Hall Hin; rewrite List.Forall_forall in Hall;
    apply lifecycle_inv in Hin as [->|(a & b & Hin & ->)].
  - assert (Hfirst := Hall first (or_introl eq_refl)).
    apply String.eqb_neq in Hfirst. run_unfold. by rewrite Hfirst.
  - apply steps_In in Hin as [_ Hb]. apply Hall, String.eqb_neq in Hb.
    change (verdict (MachinePredicate_Update p
                       {| ObjectOld := Some a; ObjectNew := Some b |}) s
            = Returns false).
    by rewrite MachinePredicate_Update_verdict, Hb.
  - assert (Hfirst := Hall first (or_introl eq_refl)).
    run_unfold. by rewrite Hfirst.
  - apply steps_In in Hin as [Ha Hb]. apply Hall in Ha, Hb.
    change (verdict (MachinePredicate_Update p
                       {| ObjectOld := Some a; ObjectNew := Some b |}) s
            = Returns false).
    rewrite MachinePredicate_Update_verdict, Ha, Hb. reflexivity.
Qed.

End Predicates.

(** * The tables at concrete objects *)

(** Stand-ins for the parts of the schemas the predicates take as given. *)

Record SampleClusterStatus : Type := {
  InfrastructureReady : bool;
  ControlPlaneReady : bool
}.

Record SampleMachineStatus : Type := { Phase : string }.

(** The accessor of cluster-api on a status reduced to its Phase: a phase
    it knows is returned as it is, any other string reads as Unknown. *)
Definition sample_GetTypedPhase (st : SampleMachineStatus) : MachinePhase :=
  if existsb (String.eqb (Phase st))
       ["Pending"; "Provisioning"; "Provisioned"; "Running";
        "Deleting"; "Deleted"; "Failed"]
  then Phase st
  else "Unknown".

Record SampleFeatureSummary : Type := {
  FeatureID : string;
  FeatureStatus : string
}.

Definition sample_DeepEqual_FeatureSummary (x y : SampleFeatureSummary) : bool :=
  String.eqb (FeatureID x) (FeatureID y) &&
  String.eqb (FeatureStatus x) (FeatureStatus y).

Definition sample_LogVerbose : nat := 10.

Definition sample_logger : Logger :=
  {| logger_level := 0; logger_values := [] |}.

Definition quiet_sink : LogSink :=
  {| sink_verbosity := 0; sink_lines := [] |}.

Definition verbose_sink : LogSink :=
  {| sink_verbosity := 10; sink_lines := [] |}.

Definition sample_meta (name : string) (labels : option (gmap string string))
    : ObjectMeta :=
  {| Name := name;
     Namespace := "default";
     ResourceVersion := "1";
     Labels := labels;
     Annotations := None |}.

Definition sample_cluster (paused : bool) (labels : option (gmap string string))
    (ready : bool) : @Cluster SampleClusterStatus :=
  {| Cluster_ObjectMeta := sample_meta "cluster" labels;
     Cluster_Spec := {| ClusterSpec_Paused := paused |};
     Cluster_Status := {| InfrastructureReady := ready; ControlPlaneReady := ready |} |}.

Definition sample_machine (name phase : string) : @Machine unit SampleMachineStatus :=
  {| Machine_ObjectMeta := sample_meta name None;
     Machine_Spec := tt;
     Machine_Status := {| Phase := phase |} |}.

Definition sample_summary (resourceVersion : string) (dependencies : option string)
    (summaries : option (list SampleFeatureSummary))
    : @ClusterSummary unit SampleFeatureSummary :=
  {| ClusterSummary_ObjectMeta :=
       {| Name := "summary"; Namespace := "default";
          ResourceVersion := resourceVersion;
          Labels := None; Annotations := None |};
     ClusterSummary_Spec := tt;
     ClusterSummary_Status :=
       {| ClusterSummaryStatus_Dependencies := dependencies;
          ClusterSummaryStatus_FeatureSummaries := summaries |} |}.

Definition helm_provisioned : SampleFeatureSummary :=
  {| FeatureID := "Helm"; FeatureStatus := "Provisioned" |}.

Definition helm_failed : SampleFeatureSummary :=
  {| FeatureID := "Helm"; FeatureStatus := "Failed" |}.

Definition env_prod : gmap string string := {[ "env" := "prod" ]}.

(** client.Object over the stand-ins; reports and health checks carry a
    string for a Spec, compared with string equality. *)
Definition SampleObject : Type :=
  @Object SampleClusterStatus unit SampleMachineStatus unit SampleFeatureSummary
          string string.

Definition summary_object (p : option ClusterSummary) : SampleObject :=
  Object_ClusterSummary p.

Definition report_object (p : option HealthCheckReport) : SampleObject :=
  Object_HealthCheckReport p.

Definition sample_report (spec : string) : @HealthCheckReport string :=
  {| HealthCheckReport_ObjectMeta := sample_meta "report" None;
     HealthCheckReport_Spec := spec |}.

Definition cluster_predicate : ClusterPredicate :=
  {| ClusterPredicate_Logger := sample_logger |}.

Definition machine_predicate : MachinePredicate :=
  {| MachinePredicate_Logger := sample_logger |}.

(** ** The scenarios of the specification *)

Example unpausing_a_cluster :
  ClusterPredicate_Update sample_LogVerbose cluster_predicate
    {| ObjectOld := Some (sample_cluster true (Some env_prod) false);
       ObjectNew := Some (sample_cluster false (Some env_prod) false) |} verbose_sink
  = (Returns true,
     {| sink_verbosity := 10;
        sink_lines :=
          [{| entry_level := 10;
              entry_keysAndValues :=
                ["predicate"; "updateEvent"; "namespace"; "default";
                 "cluster"; "cluster"];
              entry_msg :=
                "Cluster was unpaused. Will attempt to reconcile associated ClusterHealthChecks." |}] |}).
Proof. vm_compute. reflexivity. Qed.

Example pausing_a_cluster :
  verdict (ClusterPredicate_Update sample_LogVerbose cluster_predicate
             {| ObjectOld := Some (sample_cluster false (Some env_prod) false);
                ObjectNew := Some (sample_cluster true (Some env_prod) false) |})
          quiet_sink
  = Returns false.
Proof. vm_compute. reflexivity. Qed.

Example relabelling_a_cluster :
  verdict (ClusterPredicate_Update sample_LogVerbose cluster_predicate
             {| ObjectOld := Some (sample_cluster false (Some env_prod) false);
                ObjectNew := Some (sample_cluster false
                                     (Some (<["tier" := "gold"]> env_prod)) false) |})
          quiet_sink
  = Returns true.
Proof. vm_compute. reflexivity. Qed.

Example machine_provisioning_to_running :
  verdict (MachinePredicate_Update sample_LogVerbose sample_GetTypedPhase machine_predicate
             {| ObjectOld := Some (sample_machine "worker-0" "Provisioning");
                ObjectNew := Some (sample_machine "worker-0" "Running") |})
          quiet_sink
  = Returns true.
Proof. vm_compute. reflexivity. Qed.

Example machine_created_pending :
  verdict (MachinePredicate_Create sample_LogVerbose sample_GetTypedPhase machine_predicate
             {| CreateObject := Some (sample_machine "worker-0" "Pending") |})
          quiet_sink
  = Returns false.
Proof. vm_compute. reflexivity. Qed.

Example report_created :
  verdict (Create (HealthCheckReportPredicates sample_LogVerbose String.eqb sample_logger)
             {| CreateObject := report_object (Some (sample_report "degraded")) |})
          quiet_sink
  = Returns true.
Proof. vm_compute. reflexivity. Qed.

Example summary_update_same_features :
  verdict (Update (ClusterSummaryPredicates sample_LogVerbose
                     sample_DeepEqual_FeatureSummary sample_logger)
             {| ObjectOld := summary_object
                  (Some (sample_summary "1" None (Some [helm_provisioned])));
                ObjectNew := summary_object
                  (Some (sample_summary "2" (Some "base") (Some [helm_provisioned]))) |})
          quiet_sink
  = Returns false.
Proof. vm_compute. reflexivity. Qed.

Example summary_update_feature_failed :
  verdict (Update (ClusterSummaryPredicates sample_LogVerbose
                     sample_DeepEqual_FeatureSummary sample_logger)
             {| ObjectOld := summary_object
                  (Some (sample_summary "1" None (Some [helm_provisioned])));
                ObjectNew := summary_object
                  (Some (sample_summary "2" None (Some [helm_failed]))) |})
          quiet_sink
  = Returns true.
Proof. vm_compute. reflexivity. Qed.

Example machine_resync :
  verdict (MachinePredicate_Generic sample_LogVerbose machine_predicate
             {| GenericObject := Some (sample_machine "worker-0" "Running") |})
          quiet_sink
  = Returns false.
Proof. vm_compute. reflexivity. Qed.

(** A nil new object is dereferenced for the log line before anything else. *)
Example update_without_new_object_panics :
  verdict (ClusterPredicate_Update sample_LogVerbose cluster_predicate
             {| ObjectOld := Some (sample_cluster false None false);
                ObjectNew := None |})
          quiet_sink
  = Panics.
Proof. vm_compute. reflexivity. Qed.

(** ** Where the claims as stated fail *)

(** C1 as stated fails for a machine: with a nil old snapshot and a new
    snapshot still Pending, the phase test comes first and the Update
    returns false. *)
Lemma MachinePredicate_Update_nil_old_pending :
  verdict (MachinePredicate_Update sample_LogVerbose sample_GetTypedPhase machine_predicate
             {| ObjectOld := None;
                ObjectNew := Some (sample_machine "worker-0" "Pending") |})
          quiet_sink
  = Returns false.
Proof. vm_compute. reflexivity. Qed.

(** C2 as stated fails when the labels go from a nil map to an empty one:
    the cluster stays unpaused and carries the same (empty) set of labels
    before and after, yet reflect.DeepEqual tells a nil map from an empty
    map and the Update returns true. *)
Lemma ClusterPredicate_Update_nil_to_empty_labels :
  verdict (ClusterPredicate_Update sample_LogVerbose cluster_predicate
             {| ObjectOld := Some (sample_cluster false None false);
                ObjectNew := Some (sample_cluster false (Some ∅) false) |})
          quiet_sink
  = Returns true /\
  ClusterSpec_Paused (Cluster_Spec (sample_cluster false None false)) = false /\
  ClusterSpec_Paused (Cluster_Spec (sample_cluster false (Some ∅) false)) = false /\
  labelSet (Labels (Cluster_ObjectMeta (sample_cluster false None false)))
  = labelSet (Labels (Cluster_ObjectMeta (sample_cluster false (Some ∅) false))).
Proof. repeat split. Qed.

(** ** The tables applied *)

(** The machine table at work: leaving Running, reaching Running, and
    staying in Running while the labels change. *)
Lemma MachinePredicate_Update_phase_witness :
  verdict (MachinePredicate_Update sample_LogVerbose sample_GetTypedPhase machine_predicate
             {| ObjectOld := Some (sample_machine "worker-0" "Running");
                ObjectNew := Some (sample_machine "worker-0" "Deleting") |})
          quiet_sink
  = Returns false /\
  returns_iff
    (verdict (MachinePredicate_Update sample_LogVerbose sample_GetTypedPhase machine_predicate
                {| ObjectOld := Some (sample_machine "worker-0" "Provisioned");
                   ObjectNew := Some (sample_machine "worker-0" "Running") |})
             quiet_sink)
    (sample_GetTypedPhase (Machine_Status (sample_machine "worker-0" "Provisioned"))
     <> MachinePhaseRunning) /\
  verdict (MachinePredicate_Update sample_LogVerbose sample_GetTypedPhase machine_predicate
             {| ObjectOld := Some (sample_machine "worker-0" "Running");
                ObjectNew :=
                  Some {| Machine_ObjectMeta := sample_meta "worker-0" (Some env_prod);
                          Machine_Spec := tt;
                          Machine_Status := {| Phase := "Running" |} |} |})
          quiet_sink
  = Returns false.
Proof.
  destruct (MachinePredicate_Update_phase sample_LogVerbose
              (MachineSpec := unit) sample_GetTypedPhase)
    as (Hnot_running & Hinto_running & Hstays).
  split; [|split].
  - apply Hnot_running. vm_compute. discriminate.
  - apply Hinto_running. reflexivity.
  - apply Hstays; reflexivity.
Defined.

(** A summary whose ResourceVersion and Dependencies change while the
    feature summaries stay deeply equal; then an entry added, an entry
    changed where it stands, and a nil slice turned into an empty one. *)
Lemma ClusterSummary_predicates_table_witness :
  verdict (Update (ClusterSummaryPredicates sample_LogVerbose
                     sample_DeepEqual_FeatureSummary sample_logger)
             {| ObjectOld := summary_object
                  (Some (sample_summary "1" None (Some [helm_provisioned; helm_failed])));
                ObjectNew := summary_object
                  (Some (sample_summary "2" (Some "base")
                           (Some [helm_provisioned; helm_failed]))) |})
          quiet_sink
  = Returns false /\
  verdict (Update (ClusterSummaryPredicates sample_LogVerbose
                     sample_DeepEqual_FeatureSummary sample_logger)
             {| ObjectOld := summary_object
                  (Some (sample_summary "1" None (Some [helm_provisioned])));
                ObjectNew := summary_object
                  (Some (sample_summary "2" None
                           (Some [helm_provisioned; helm_failed]))) |})
          quiet_sink
  = Returns true /\
  verdict (Update (ClusterSummaryPredicates sample_LogVerbose
                     sample_DeepEqual_FeatureSummary sample_logger)
             {| ObjectOld := summary_object
                  (Some (sample_summary "1" None (Some [helm_provisioned])));
                ObjectNew := summary_object
                  (Some (sample_summary "2" None (Some [helm_failed]))) |})
          quiet_sink
  = Returns true /\
  verdict (Update (ClusterSummaryPredicates sample_LogVerbose
                     sample_DeepEqual_FeatureSummary sample_logger)
             {| ObjectOld := summary_object (Some (sample_summary "1" None None));
                ObjectNew := summary_object (Some (sample_summary "2" None (Some []))) |})
          quiet_sink
  = Returns true.
Proof.
  destruct (ClusterSummary_predicates_table sample_LogVerbose
              (ClusterStatus := SampleClusterStatus) (MachineSpec := unit)
              (MachineStatus := SampleMachineStatus) (ClusterSummarySpec := unit)
              sample_DeepEqual_FeatureSummary
              (HealthCheckReportSpec := string) (HealthCheckSpec := string))
    as (_ & _ & _ & Hsame & _ & Hlength & Hentry & Hnil).
  split; [|split; [|split]].
  - apply Hsame. simpl. repeat constructor.
  - apply Hlength. simpl. lia.
  - apply (Hentry sample_logger _ _ 0 helm_provisioned helm_failed); reflexivity.
  - apply Hnil. simpl. discriminate.
Defined.

(** Two unpausing updates that differ in logger, sink and status get the
    same verdict; a status-only update of a paused cluster returns false. *)
Lemma ClusterPredicate_Update_paused_and_labels_only_witness :
  verdict (ClusterPredicate_Update sample_LogVerbose cluster_predicate
             {| ObjectOld := Some (sample_cluster true (Some env_prod) false);
                ObjectNew := Some (sample_cluster false (Some env_prod) false) |})
          quiet_sink
  = verdict (ClusterPredicate_Update sample_LogVerbose
               {| ClusterPredicate_Logger := V sample_logger 3 |}
               {| ObjectOld := Some (sample_cluster true (Some env_prod) true);
                  ObjectNew := Some (sample_cluster false (Some env_prod) true) |})
            verbose_sink /\
  verdict (ClusterPredicate_Update sample_LogVerbose cluster_predicate
             {| ObjectOld := Some (sample_cluster true (Some env_prod) false);
                ObjectNew := Some (sample_cluster true (Some env_prod) true) |})
          quiet_sink
  = Returns false.
Proof.
  destruct (ClusterPredicate_Update_paused_and_labels_only sample_LogVerbose
              (ClusterStatus := SampleClusterStatus)) as (Hsame & Hfalse).
  split.
  - apply Hsame; reflexivity.
  - apply Hfalse; reflexivity.
Defined.

(** ** Beyond the tables, applied *)

Definition sample_sveltos (paused : bool) (labels : option (gmap string string))
    (ready : bool) : SveltosCluster :=
  {| SveltosCluster_ObjectMeta := sample_meta "sveltos" labels;
     SveltosCluster_Spec := {| SveltosClusterSpec_Paused := paused |};
     SveltosCluster_Status :=
       {| SveltosClusterStatus_Version := "v1.31.0";
          SveltosClusterStatus_Ready := ready;
          SveltosClusterStatus_FailureMessage := None |} |}.

Definition sveltos_object (cluster : SveltosCluster) : SampleObject :=
  Object_SveltosCluster (Some cluster).

Definition env_prod_gold : gmap string string := <["tier" := "gold"]> env_prod.

(** A machine created Running was reported, and it is Running. *)
Lemma MachinePredicate_true_only_if_Running_witness :
  exists machine,
    Notification_object
      (OnCreate {| CreateObject := Some (sample_machine "worker-0" "Running") |})
    = Some machine /\
    sample_GetTypedPhase (Machine_Status machine) = MachinePhaseRunning.
Proof.
  apply (MachinePredicate_true_only_if_Running sample_LogVerbose sample_GetTypedPhase
           machine_predicate _ quiet_sink).
  reflexivity.
Defined.

(** At verbosity 0 an unpausing Update, which logs at level 10, leaves the
    sink as it was. *)
Lemma predicates_silent_below_LogVerbose_witness :
  sink_after
    (evaluate (ClusterPredicate_predicate sample_LogVerbose cluster_predicate)
       (OnUpdate {| ObjectOld := Some (sample_cluster true (Some env_prod) false);
                    ObjectNew := Some (sample_cluster false (Some env_prod) false) |}))
    quiet_sink
  = quiet_sink.
Proof.
  apply (predicates_silent_below_LogVerbose sample_LogVerbose
           (ClusterStatus := SampleClusterStatus) (MachineSpec := unit)
           sample_GetTypedPhase (ClusterSummarySpec := unit)
           sample_DeepEqual_FeatureSummary String.eqb String.eqb).
  vm_compute. lia.
Defined.

(** An Update without a new object panics and logs nothing, even in a
    verbose sink. *)
Lemma predicates_panic_before_logging_witness :
  sink_after
    (evaluate (ClusterPredicate_predicate sample_LogVerbose cluster_predicate)
       (OnUpdate {| ObjectOld := Some (sample_cluster false None false);
                    ObjectNew := None |}))
    verbose_sink
  = verbose_sink.
Proof.
  apply (predicates_panic_before_logging sample_LogVerbose
           (ClusterStatus := SampleClusterStatus) (MachineSpec := unit)
           sample_GetTypedPhase (ClusterSummarySpec := unit)
           sample_DeepEqual_FeatureSummary String.eqb String.eqb).
  reflexivity.
Defined.

(** The line a machine Update into Running writes to a verbose sink. *)
Lemma predicates_log_line_shape_witness :
  entry_level
    {| entry_level := 10;
       entry_keysAndValues :=
         ["predicate"; "updateEvent"; "namespace"; "default"; "machine"; "worker-0"];
       entry_msg :=
         "Machine was not in Running Phase. Will attempt to reconcile associated ClusterHealthChecks." |}
  = logger_level (MachinePredicate_Logger machine_predicate) + sample_LogVerbose /\
  exists rest,
    entry_keysAndValues
      {| entry_level := 10;
         entry_keysAndValues :=
           ["predicate"; "updateEvent"; "namespace"; "default"; "machine"; "worker-0"];
         entry_msg :=
           "Machine was not in Running Phase. Will attempt to reconcile associated ClusterHealthChecks." |}
    = logger_values (MachinePredicate_Logger machine_predicate)
        ++ "predicate"
           :: Notification_eventName
                (OnUpdate {| ObjectOld := Some (sample_machine "worker-0" "Provisioning");
                             ObjectNew := Some (sample_machine "worker-0" "Running") |})
           :: rest.
Proof.
  apply (proj1 (proj2 (predicates_log_line_shape sample_LogVerbose
                         (ClusterStatus := SampleClusterStatus) (MachineSpec := unit)
                         sample_GetTypedPhase (ClusterSummarySpec := unit)
                         sample_DeepEqual_FeatureSummary String.eqb String.eqb))
           machine_predicate _ verbose_sink).
  reflexivity.
Defined.

(** A sveltos cluster that becomes ready while a generic cluster with the
    same pause flags and labels sees nothing to report. *)
Lemma SveltosCluster_Update_extends_Cluster_Update_witness :
  exists b,
    verdict (ClusterPredicate_Update sample_LogVerbose cluster_predicate
               {| ObjectOld := Some (sample_cluster false (Some env_prod) false);
                  ObjectNew := Some (sample_cluster false (Some env_prod) true) |})
            quiet_sink
    = Returns b /\
    verdict (Update (SveltosClusterPredicates sample_LogVerbose sample_logger)
               {| ObjectOld := sveltos_object (sample_sveltos false (Some env_prod) false);
                  ObjectNew := sveltos_object (sample_sveltos false (Some env_prod) true) |})
            verbose_sink
    = Returns (b || negb false && true).
Proof.
  apply (SveltosCluster_Update_extends_Cluster_Update sample_LogVerbose
           (ClusterStatus := SampleClusterStatus) (MachineSpec := unit)
           (MachineStatus := SampleMachineStatus) (ClusterSummarySpec := unit)
           (FeatureSummary := SampleFeatureSummary)
           (HealthCheckReportSpec := string) (HealthCheckSpec := string)
           cluster_predicate sample_logger
           (sample_cluster false (Some env_prod) false)
           (sample_cluster false (Some env_prod) true)
           (sample_sveltos false (Some env_prod) false)
           (sample_sveltos false (Some env_prod) true)); reflexivity.
Defined.

(** The first label put on a paused cluster that had a nil label map, a
    second label added, and the only label taken away, leaving nil. *)
Lemma cluster_Update_label_edit_witness :
  verdict (ClusterPredicate_Update sample_LogVerbose cluster_predicate
             {| ObjectOld := Some (sample_cluster true None false);
                ObjectNew := Some (sample_cluster true (Some env_prod) false) |})
          quiet_sink
  = Returns true /\
  verdict (ClusterPredicate_Update sample_LogVerbose cluster_predicate
             {| ObjectOld := Some (sample_cluster true (Some env_prod) false);
                ObjectNew := Some (sample_cluster true (Some env_prod_gold) false) |})
          quiet_sink
  = Returns true /\
  verdict (ClusterPredicate_Update sample_LogVerbose cluster_predicate
             {| ObjectOld := Some (sample_cluster true (Some env_prod) false);
                ObjectNew := Some (sample_cluster true None false) |})
          quiet_sink
  = Returns true.
Proof.
  destruct (cluster_Update_label_edit sample_LogVerbose
              (ClusterStatus := SampleClusterStatus) (MachineSpec := unit)
              (MachineStatus := SampleMachineStatus) (ClusterSummarySpec := unit)
              (FeatureSummary := SampleFeatureSummary)
              (HealthCheckReportSpec := string) (HealthCheckSpec := string))
    as (Hadded & Hremoved & _).
  split; [|split].
  - apply (Hadded cluster_predicate _ _ "env" "prod");
      [vm_compute; discriminate | vm_compute; reflexivity].
  - apply (Hadded cluster_predicate _ _ "tier" "gold");
      [vm_compute; discriminate | vm_compute; reflexivity].
  - apply (Hremoved cluster_predicate _ _ "env");
      [exists "prod"; vm_compute; reflexivity | vm_compute; reflexivity].
Defined.

(** A cluster created paused, still paused after one update, unpaused by
    the next. *)
Lemma cluster_unpaused_was_noticed_witness :
  exists n,
    In n (lifecycle Some (sample_cluster true None false)
            [sample_cluster true (Some env_prod) false;
             sample_cluster false (Some env_prod) false]) /\
    verdict (evaluate (ClusterPredicate_predicate sample_LogVerbose cluster_predicate) n)
            quiet_sink
    = Returns true.
Proof.
  apply (proj1 (cluster_unpaused_was_noticed sample_LogVerbose
                  (ClusterStatus := SampleClusterStatus) (MachineSpec := unit)
                  (MachineStatus := SampleMachineStatus) (ClusterSummarySpec := unit)
                  (FeatureSummary := SampleFeatureSummary)
                  (HealthCheckReportSpec := string) (HealthCheckSpec := string))).
  reflexivity.
Defined.

(** A machine created Pending that is provisioned and then runs. *)
Lemma machine_running_was_noticed_witness :
  exists n,
    In n (lifecycle Some (sample_machine "worker-0" "Pending")
            [sample_machine "worker-0" "Provisioning";
             sample_machine "worker-0" "Running"]) /\
    verdict (evaluate (MachinePredicate_predicate sample_LogVerbose sample_GetTypedPhase
                         machine_predicate) n)
            quiet_sink
    = Returns true.
Proof.
  apply (machine_running_was_noticed sample_LogVerbose sample_GetTypedPhase).
  reflexivity.
Defined.

(** A cluster created without labels that ends up labelled env=prod. *)
Lemma cluster_relabelled_was_noticed_witness :
  exists old new,
    In (OnUpdate {| ObjectOld := Some old; ObjectNew := Some new |})
       (lifecycle Some (sample_cluster true None false)
          [sample_cluster true None true;
           sample_cluster true (Some env_prod) true]) /\
    verdict (ClusterPredicate_Update sample_LogVerbose cluster_predicate
               {| ObjectOld := Some old; ObjectNew := Some new |})
            quiet_sink
    = Returns true.
Proof.
  apply (proj1 (cluster_relabelled_was_noticed sample_LogVerbose
                  (ClusterStatus := SampleClusterStatus) (MachineSpec := unit)
                  (MachineStatus := SampleMachineStatus) (ClusterSummarySpec := unit)
                  (FeatureSummary := SampleFeatureSummary)
                  (HealthCheckReportSpec := string) (HealthCheckSpec := string))).
  simpl. discriminate.
Defined.

(** A sveltos cluster created not ready that becomes ready. *)
Lemma sveltos_cluster_ready_was_noticed_witness :
  exists old new,
    In (OnUpdate {| ObjectOld := sveltos_object old; ObjectNew := sveltos_object new |})
       (lifecycle sveltos_object (sample_sveltos false None false)
          [sample_sveltos false None false;
           sample_sveltos false None true]) /\
    verdict (Update (SveltosClusterPredicates sample_LogVerbose sample_logger)
               {| ObjectOld := sveltos_object old; ObjectNew := sveltos_object new |})
            quiet_sink
    = Returns true.
Proof.
  apply (sveltos_cluster_ready_was_noticed sample_LogVerbose
           (ClusterStatus := SampleClusterStatus) (MachineSpec := unit)
           (MachineStatus := SampleMachineStatus) (ClusterSummarySpec := unit)
           (FeatureSummary := SampleFeatureSummary)
           (HealthCheckReportSpec := string) (HealthCheckSpec := string));
    reflexivity.
Defined.

(** A paused cluster whose status changes: nothing to report. *)
Lemma paused_cluster_stays_quiet_witness :
  verdict
    (evaluate (ClusterPredicate_predicate sample_LogVerbose cluster_predicate)
       (OnUpdate {| ObjectOld := Some (sample_cluster true (Some env_prod) false);
                    ObjectNew := Some (sample_cluster true (Some env_prod) true) |}))
    quiet_sink
  = Returns false.
Proof.
  apply (paused_cluster_stays_quiet sample_LogVerbose cluster_predicate
           (sample_cluster true (Some env_prod) false)
           [sample_cluster true (Some env_prod) true]).
  - repeat constructor.
  - right. left. reflexivity.
Defined.

(** A machine that is only ever provisioned, and one that only ever runs. *)
Lemma machine_history_verdicts_witness :
  verdict
    (evaluate (MachinePredicate_predicate sample_LogVerbose sample_GetTypedPhase
                 machine_predicate)
       (OnUpdate {| ObjectOld := Some (sample_machine "worker-0" "Pending");
                    ObjectNew := Some (sample_machine "worker-0" "Provisioning") |}))
    quiet_sink
  = Returns false /\
  verdict
    (evaluate (MachinePredicate_predicate sample_LogVerbose sample_GetTypedPhase
                 machine_predicate)
       (OnUpdate {| ObjectOld := Some (sample_machine "worker-0" "Running");
                    ObjectNew := Some (sample_machine "worker-1" "Running") |}))
    quiet_sink
  = Returns false.
Proof.
  destruct (machine_history_verdicts sample_LogVerbose (MachineSpec := unit)
              sample_GetTypedPhase) as (Hnever & Halways).
  split.
  - apply (Hnever machine_predicate (sample_machine "worker-0" "Pending")
             [sample_machine "worker-0" "Provisioning"]).
    + repeat constructor; vm_compute; discriminate.
    + right. left. reflexivity.
  - apply (Halways machine_predicate (sample_machine "worker-0" "Running")
             [sample_machine "worker-1" "Running"] quiet_sink
             (OnUpdate {| ObjectOld := Some (sample_machine "worker-0" "Running");
                          ObjectNew := Some (sample_machine "worker-1" "Running") |})).
    + repeat constructor.
    + right. left. reflexivity.
Defined.
